(** * file_parser.py: logical chunks of PDF, DOCX, PPTX, CSV and TSV files

    A shallow embedding of [src/file_parser.py].  Python values are a small
    universe [pyval]; every parser class is a module with its [init] and
    [parse_file]; [self.chunks] is threaded through a state-and-exception
    monad, so that a raise inside a loop leaves the loop the way it does in
    Python.  The third-party decoders (PyPDF2, tabula, python-docx,
    python-pptx, pandas) are not part of the repository: their objects are
    records holding what the source reads from them, an attribute or an
    operation their classes do not have raises as it does in Python, and
    the two calls whose result depends on a file ([tabula.read_pdf],
    [pd.read_csv]) are section variables. *)

From Stdlib Require Import String Ascii List ZArith Lia Bool Permutation Sorted.
Import ListNotations.
Local Open Scope string_scope.
Local Open Scope list_scope.
Local Open Scope Z_scope.

(** ** Python values *)

#[warnings="-register-all"]
Inductive pyval : Type :=
| PNone
| PInt (n : Z)
| PStr (s : string)
| PBytes (b : string)
| PObj (handle : nat)
| PList (items : list pyval)
| PDict (entries : list (string * pyval))
| PIndex (labels : list string)
| PFrame (labels : list string) (grid : list (list pyval)).

(** A [dict] keeps its keys in insertion order; assigning an existing key
    replaces the value in place. *)
Definition dict := list (string * pyval).

Fixpoint dict_get (k : string) (d : dict) : option pyval :=
  match d with
  | [] => None
  | (k', v) :: rest => if String.eqb k' k then Some v else dict_get k rest
  end.

Fixpoint dict_set (k : string) (v : pyval) (d : dict) : dict :=
  match d with
  | [] => [(k, v)]
  | (k', v') :: rest =>
      if String.eqb k' k then (k', v) :: rest else (k', v') :: dict_set k v rest
  end.

Definition dict_keys (d : dict) : list string := map fst d.

(** ** Exceptions and the state-and-exception monad *)

Inductive exn : Type :=
| KeyError (key : string)
| IndexError
| TypeError
| AttributeError (attribute : string)
| DecoderError (message : string).

Inductive outcome (A : Type) : Type :=
| Return (a : A)
| Raise (e : exn).
Arguments Return {A} a.
Arguments Raise {A} e.

(** A computation over the mutable attribute of type [S]: it ends with a
    value or an exception, and with the attribute as it was left. *)
Definition M (S A : Type) : Type := S -> outcome A * S.

Definition ret {S A} (a : A) : M S A := fun s => (Return a, s).

Definition bind {S A B} (c : M S A) (k : A -> M S B) : M S B :=
  fun s =>
    match c s with
    | (Return a, s') => k a s'
    | (Raise e, s') => (Raise e, s')
    end.

Definition lift {S A} (o : outcome A) : M S A := fun s => (o, s).
Definition get {S} : M S S := fun s => (Return s, s).
Definition put {S} (s : S) : M S unit := fun _ => (Return tt, s).

Declare Scope py_scope.
Delimit Scope py_scope with py.
Notation "x <- c ;; k" := (bind c (fun x => k))
  (at level 61, c at next level, right associativity) : py_scope.
Notation "c ;; k" := (bind c (fun _ => k))
  (at level 61, right associativity) : py_scope.
Local Open Scope py_scope.

(** [for x in xs: body x] *)
Fixpoint for_each {S X} (xs : list X) (body : X -> M S unit) : M S unit :=
  match xs with
  | [] => ret tt
  | x :: rest => body x ;; for_each rest body
  end.

(** [self.chunks.append(f(len(self.chunks)))]: every chunk literal of the
    source that carries an [order] reads the length of the list it is
    appended to. *)
Definition append_chunk (mk : Z -> pyval) : M (list pyval) unit :=
  fun chunks => (Return tt, chunks ++ [mk (Z.of_nat (List.length chunks))]).

(** ** Subscripting and the sort key *)

(** [x[k]] for a string key. *)
Definition getitem (x : pyval) (k : string) : outcome pyval :=
  match x with
  | PDict d =>
      match dict_get k d with
      | Some v => Return v
      | None => Raise (KeyError k)
      end
  | _ => Raise TypeError
  end.

(** [lambda x: x["order"]]: whatever the chunk holds under [order]. *)
Definition order_key (x : pyval) : outcome pyval := getitem x "order".

(** [a < b] between two keys.  Integers, strings and byte strings compare
    with their own kind; [None], dicts, opaque objects and two keys of
    different kinds have no order and the comparison raises [TypeError].
    Lists and pandas objects, which no parser writes under [order], are not
    compared by this model: it raises on them as well. *)
Definition py_lt (a b : pyval) : outcome bool :=
  match a, b with
  | PInt x, PInt y => Return (x <? y)
  | PStr s, PStr t => Return (String.ltb s t)
  | PBytes s, PBytes t => Return (String.ltb s t)
  | _, _ => Raise TypeError
  end.

(** ** [sorted(xs, key=...)]

    Python computes the key of every element once, in order, and then sorts
    the decorated list with [<] on the keys; an exception of the key
    function or of a comparison leaves [sorted].  The builtin is documented
    to be stable.  The model is the insertion sort that places an element
    after the later elements that are smaller than it and before the first
    that is not. *)
Fixpoint decorate {A K} (key : A -> outcome K) (xs : list A) : outcome (list (K * A)) :=
  match xs with
  | [] => Return []
  | x :: rest =>
      match key x with
      | Raise e => Raise e
      | Return k =>
          match decorate key rest with
          | Raise e => Raise e
          | Return ds => Return ((k, x) :: ds)
          end
      end
  end.

Fixpoint insert_keyed {A K} (lt : K -> K -> outcome bool) (p : K * A) (l : list (K * A))
  : outcome (list (K * A)) :=
  match l with
  | [] => Return [p]
  | q :: rest =>
      match lt (fst q) (fst p) with
      | Raise e => Raise e
      | Return false => Return (p :: q :: rest)
      | Return true =>
          match insert_keyed lt p rest with
          | Raise e => Raise e
          | Return l' => Return (q :: l')
          end
      end
  end.

Fixpoint sort_keyed {A K} (lt : K -> K -> outcome bool) (l : list (K * A))
  : outcome (list (K * A)) :=
  match l with
  | [] => Return []
  | p :: rest =>
      match sort_keyed lt rest with
      | Raise e => Raise e
      | Return s => insert_keyed lt p s
      end
  end.

Definition sorted {A} (xs : list A) (key : A -> outcome pyval) : outcome (list A) :=
  match decorate key xs with
  | Raise e => Raise e
  | Return ds =>
      match sort_keyed py_lt ds with
      | Raise e => Raise e
      | Return s => Return (map snd s)
      end
  end.

(** ** Strings *)

Definition nl : string := String "010"%char EmptyString.

(** [s.split(sep)] for a non-empty separator: cut at every occurrence found
    from the left, occurrences do not overlap.  [skip] counts the characters
    of a separator still to be passed over. *)
Fixpoint split_from (sep : string) (skip : nat) (cur : string) (s : string) : list string :=
  match s with
  | EmptyString => [cur]
  | String c s' =>
      match skip with
      | S k => split_from sep k cur s'
      | O =>
          if prefix sep s
          then cur :: split_from sep (String.length sep - 1) "" s'
          else split_from sep 0 (String.append cur (String c "")) s'
      end
  end.

Definition str_split (s sep : string) : list string := split_from sep 0 "" s.

(** [s.startswith(p)] *)
Definition startswith (s p : string) : bool := prefix p s.

(** ** pandas data frames *)

Record DataFrame : Type := {
  columns : list string;
  values : list (list pyval)
}.

Definition frame_val (df : DataFrame) : pyval := PFrame (columns df) (values df).

Fixpoint index_of (label : string) (labels : list string) : option nat :=
  match labels with
  | [] => None
  | l :: rest =>
      if String.eqb l label then Some O
      else match index_of label rest with
           | Some j => Some (S j)
           | None => None
           end
  end.

(** [df[label].tolist()]: the cells of the column with that label, one per
    row ([pd.read_csv] gives every column its own label). *)
Definition column_tolist (df : DataFrame) (label : string) : outcome (list pyval) :=
  match index_of label (columns df) with
  | Some j => Return (map (fun row => nth j row PNone) (values df))
  | None => Raise (KeyError label)
  end.

(** ** class PDFParser *)

Record Page : Type := {
  extract_text : string
}.

(** [page.extract_images()]: a PyPDF2 page has no attribute of that name
    (its images are under [page.images]), so the lookup raises. *)
Definition extract_images (page : Page) : outcome (list nat) :=
  Raise (AttributeError "extract_images").

Module PDFParser.
Section WithTabula.

(** [tabula.read_pdf(io.StringIO(text), pages=1, lattice=True)]: the
    tables detected in a page's text, or the exception the call raises. *)
Variable read_pdf : string -> outcome (list DataFrame).

Record t : Type := { reader_pages : list Page; chunks : list pyval }.

(** [__init__], given the pages [PyPDF2.PdfReader(file_path)] holds. *)
Definition init (pages : list Page) : t :=
  {| reader_pages := pages; chunks := [] |}.

Definition paragraph_chunk (paragraph : string) (order : Z) : pyval :=
  PDict [("type", PStr "paragraph"); ("text", PStr paragraph); ("order", PInt order)].

Definition table_chunk (table : DataFrame) (order : Z) : pyval :=
  let headers := map PStr (columns table) in
  let data := map PList (values table) in
  PDict [("type", PStr "table"); ("headers", PList headers);
         ("data", PList data); ("order", PInt order)].

Definition image_chunk (image : nat) (order : Z) : pyval :=
  PDict [("type", PStr "image"); ("image", PObj image); ("order", PInt order)].

(** The body of [for page in self.reader.pages]. *)
Definition parse_page (page : Page) : M (list pyval) unit :=
  let text := extract_text page in
  let paragraphs := str_split text (String.append nl nl) in
  for_each paragraphs (fun paragraph => append_chunk (paragraph_chunk paragraph)) ;;
  tables <- lift (read_pdf (extract_text page)) ;;
  for_each tables (fun table => append_chunk (table_chunk table)) ;;
  images <- lift (extract_images page) ;;
  for_each images (fun image => append_chunk (image_chunk image)).

Definition parse_pages (pages : list Page) : M (list pyval) (list pyval) :=
  for_each pages parse_page ;;
  chunks <- get ;;
  chunks <- lift (sorted chunks order_key) ;;
  put chunks ;;
  ret chunks.

(** [parse_file(self)]: the value returned or the exception raised, and
    [self] afterwards. *)
Definition parse_file (self : t) : outcome (list pyval) * t :=
  let (r, chunks') := parse_pages (reader_pages self) (chunks self) in
  (r, {| reader_pages := reader_pages self; chunks := chunks' |}).

End WithTabula.
End PDFParser.

(** ** class DocxParser *)

Record Paragraph : Type := {
  style_name : string;
  text : string
}.

Record Docx : Type := {
  paragraphs : list Paragraph;
  tables : list (list (list string));
  inline_shapes : list nat
}.

(** [img._inline.docx.blob]: the [CT_Inline] element under [_inline] has no
    attribute [docx], so the lookup raises before any blob is read. *)
Definition inline_blob (img : nat) : outcome string :=
  Raise (AttributeError "docx").

Module DocxParser.

Record t : Type := { doc : Docx; chunks : list pyval }.

Definition init (d : Docx) : t := {| doc := d; chunks := [] |}.

Definition append (x : pyval) : M (list pyval) unit :=
  fun chunks => (Return tt, chunks ++ [x]).

Definition parse_paragraph (para : Paragraph) : M (list pyval) unit :=
  if startswith (style_name para) "List"
  then append (PDict [("type", PStr "list"); ("data", PStr (text para))])
  else append (PStr (text para)).

(** The two nested loops fill [row_data] and [table_data] cell by cell, in
    order; the lists they build are these maps. *)
Definition parse_table (table : list (list string)) : M (list pyval) unit :=
  let table_data := map (fun row => PList (map PStr row)) table in
  append (PList table_data).

Definition parse_image (img : nat) : M (list pyval) unit :=
  blob <- lift (inline_blob img) ;;
  append (PDict [("type", PStr "image"); ("data", PBytes blob)]).

Definition parse_doc (d : Docx) : M (list pyval) (list pyval) :=
  for_each (paragraphs d) parse_paragraph ;;
  for_each (tables d) parse_table ;;
  for_each (inline_shapes d) parse_image ;;
  get.

Definition parse_file (self : t) : outcome (list pyval) * t :=
  let (r, chunks') := parse_doc (doc self) (chunks self) in
  (r, {| doc := doc self; chunks := chunks' |}).

End DocxParser.

(** ** class PPTParser *)

Record Shape : Type := {
  has_text_frame : bool;
  text_frame : list string;
  shape_type : Z;
  table : list (list string);
  image : nat
}.

Module PPTParser.

Record t : Type := { slides : list (list Shape); chunks : list pyval }.

Definition init (presentation : list (list Shape)) : t :=
  {| slides := presentation; chunks := [] |}.

(** [text = ''] followed by [text += paragraph.text + '\n'] for every
    paragraph of the frame. *)
Definition frame_text (frame : list string) : string :=
  fold_left (fun text paragraph => String.append text (String.append paragraph nl)) frame "".

Definition paragraph_chunk (text : string) (order : Z) : pyval :=
  PDict [("type", PStr "paragraph"); ("text", PStr text); ("order", PInt order)].

Definition table_chunk (headers : list string) (data : list (list string)) (order : Z) : pyval :=
  PDict [("type", PStr "table"); ("headers", PList (map PStr headers));
         ("data", PList (map (fun row => PList (map PStr row)) data));
         ("order", PInt order)].

Definition image_chunk (image : nat) (order : Z) : pyval :=
  PDict [("type", PStr "image"); ("image", PObj image); ("order", PInt order)].

(** [rows[0]]: [_RowCollection.__getitem__] with an index in range. *)
Definition first_row (rows : list (list string)) : outcome (list string) :=
  match rows with
  | [] => Raise IndexError
  | row :: _ => Return row
  end.

(** [rows[1:]]: [_RowCollection.__getitem__] takes an integer only; it
    starts with [idx < 0], which raises for a slice. *)
Definition rows_from (rows : list (list string)) (start : nat)
  : outcome (list (list string)) :=
  Raise TypeError.

(** The body of [for shape in slide.shapes]. *)
Definition parse_shape (shape : Shape) : M (list pyval) unit :=
  if has_text_frame shape then
    let text := frame_text (text_frame shape) in
    append_chunk (paragraph_chunk text)
  else if shape_type shape =? 19 then
    let rows := table shape in
    headers <- lift (first_row rows) ;;
    data <- lift (rows_from rows 1) ;;
    append_chunk (table_chunk headers data)
  else if shape_type shape =? 13 then
    append_chunk (image_chunk (image shape))
  else ret tt.

Definition parse_slides (presentation : list (list Shape)) : M (list pyval) (list pyval) :=
  for_each presentation (fun slide => for_each slide parse_shape) ;;
  chunks <- get ;;
  chunks <- lift (sorted chunks order_key) ;;
  put chunks ;;
  ret chunks.

Definition parse_file (self : t) : outcome (list pyval) * t :=
  let (r, chunks') := parse_slides (slides self) (chunks self) in
  (r, {| slides := slides self; chunks := chunks' |}).

End PPTParser.

(** ** class CSVParser, class TSVParser *)

Definition setitem (k : string) (v : pyval) : M dict unit :=
  fun chunks => (Return tt, dict_set k v chunks).

Definition tab : string := String "009"%char EmptyString.

Module CSVParser.
Section WithPandas.

(** [pd.read_csv(file_path, delimiter=...)]: the parsed grid, first row
    as header, or the exception the call raises. *)
Variable read_csv : string -> string -> outcome DataFrame.

Record t : Type := { dataframe : DataFrame; chunks : dict }.

Definition init (file_path : string) : outcome t :=
  match read_csv file_path "," with
  | Return df => Return {| dataframe := df; chunks := [] |}
  | Raise e => Raise e
  end.

Definition parse_frame (df : DataFrame) : M dict dict :=
  for_each (columns df) (fun i =>
    col <- lift (column_tolist df i) ;;
    setitem i (PList col)) ;;
  setitem "dataframe" (frame_val df) ;;
  setitem "headers" (PIndex (columns df)) ;;
  get.

Definition parse_file (self : t) : outcome dict * t :=
  let (r, chunks') := parse_frame (dataframe self) (chunks self) in
  (r, {| dataframe := dataframe self; chunks := chunks' |}).

(** [CSVParser(file_path).parse_file()] *)
Definition extract (file_path : string) : outcome dict :=
  match init file_path with
  | Return self => fst (parse_file self)
  | Raise e => Raise e
  end.

End WithPandas.
End CSVParser.

Module TSVParser.
Section WithPandas.

Variable read_csv : string -> string -> outcome DataFrame.

Record t : Type := { dataframe : DataFrame; chunks : dict }.

Definition init (file_path : string) : outcome t :=
  match read_csv file_path tab with
  | Return df => Return {| dataframe := df; chunks := [] |}
  | Raise e => Raise e
  end.

Definition parse_frame (df : DataFrame) : M dict dict :=
  for_each (columns df) (fun i =>
    col <- lift (column_tolist df i) ;;
    setitem i (PList col) ;;
    setitem "dataframe" (frame_val df) ;;
    setitem "headers" (PIndex (columns df))) ;;
  get.

Definition parse_file (self : t) : outcome dict * t :=
  let (r, chunks') := parse_frame (dataframe self) (chunks self) in
  (r, {| dataframe := dataframe self; chunks := chunks' |}).

(** [TSVParser(file_path).parse_file()] *)
Definition extract (file_path : string) : outcome dict :=
  match init file_path with
  | Return self => fst (parse_file self)
  | Raise e => Raise e
  end.

End WithPandas.
End TSVParser.

(** ** class FileParser

    The menu reads lines with [input] and writes with [print].  The console
    is the list of lines still to be read and the list of what has been
    written; [input] on an exhausted console raises [EOFError].  Printing a
    parse result is an event that carries the value printed. *)

Inductive output : Type :=
| Line (s : string)
| Prompt (s : string)
| Value (v : pyval).

Inductive failure : Type :=
| EOFError
| ParserRaised (e : exn).

Inductive result (A : Type) : Type :=
| Ok (a : A)
| Failed (f : failure).
Arguments Ok {A} a.
Arguments Failed {A} f.

(** [s.endswith(suffix)] *)
Definition endswith (s suffix : string) : bool :=
  let n := String.length s in
  let m := String.length suffix in
  (m <=? n)%nat && String.eqb (substring (n - m) m s) suffix.

(** What the constructors of the parser classes read from a file. *)
Record Decoders : Type := {
  PdfReader : string -> outcome (list Page);
  tabula_read_pdf : string -> outcome (list DataFrame);
  Document : string -> outcome Docx;
  Presentation : string -> outcome (list (list Shape));
  pd_read_csv : string -> string -> outcome DataFrame
}.

Module FileParser.

Record t : Type := {
  file_path : string;
  file_type : string;
  stdin : list string;
  stdout : list output
}.

(** [__init__] on a console. *)
Definition init (lines : list string) : t :=
  {| file_path := ""; file_type := ""; stdin := lines; stdout := [] |}.

Definition IO (A : Type) : Type := t -> result A * t.

Definition io_ret {A} (a : A) : IO A := fun w => (Ok a, w).

Definition io_bind {A B} (c : IO A) (k : A -> IO B) : IO B :=
  fun w =>
    match c w with
    | (Ok a, w') => k a w'
    | (Failed f, w') => (Failed f, w')
    end.

Declare Scope io_scope.
Notation "x <- c ;; k" := (io_bind c (fun x => k))
  (at level 61, c at next level, right associativity) : io_scope.
Notation "c ;; k" := (io_bind c (fun _ => k))
  (at level 61, right associativity) : io_scope.
Local Open Scope io_scope.

Definition write (o : output) : IO unit :=
  fun w => (Ok tt, {| file_path := file_path w; file_type := file_type w;
                      stdin := stdin w; stdout := stdout w ++ [o] |}).

Definition print (s : string) : IO unit := write (Line s).

Definition input (prompt : string) : IO string :=
  write (Prompt prompt) ;;
  fun w =>
    match stdin w with
    | [] => (Failed EOFError, w)
    | line :: rest =>
        (Ok line, {| file_path := file_path w; file_type := file_type w;
                     stdin := rest; stdout := stdout w |})
    end.

Definition set_file_path (path : string) : IO unit :=
  fun w => (Ok tt, {| file_path := path; file_type := file_type w;
                      stdin := stdin w; stdout := stdout w |}).

Definition set_file_type (type : string) : IO unit :=
  fun w => (Ok tt, {| file_path := file_path w; file_type := type;
                      stdin := stdin w; stdout := stdout w |}).

Definition get_self : IO t := fun w => (Ok w, w).

(** A call into a parser class: its exception leaves the menu. *)
Definition call {A} (o : outcome A) : IO A :=
  fun w =>
    match o with
    | Return a => (Ok a, w)
    | Raise e => (Failed (ParserRaised e), w)
    end.

Definition display_menu : IO unit :=
  print "File Parser Menu" ;;
  print "----------------" ;;
  print "1. Select File" ;;
  print "2. Parse File" ;;
  print "3. Exit".

Definition supported : list string := ["csv"; "tsv"; "pdf"; "ppt"; "docx"].

Definition select_file : IO bool :=
  path <- input "Enter the file path: " ;;
  set_file_path path ;;
  type <- input "Enter the file type ( csv, tsv, pdf, ppt, docx): " ;;
  set_file_type type ;;
  if negb (existsb (String.eqb type) supported) then
    print "Error: Unsupported file type" ;;
    io_ret false
  else
    print "File selected successfully" ;;
    io_ret true.

Section WithDecoders.
Variable env : Decoders.

(** [PDFParser(path).parse_file()] and its siblings. *)
Definition pdf_chunks (path : string) : outcome (list pyval) :=
  match PdfReader env path with
  | Return pages =>
      fst (PDFParser.parse_file (tabula_read_pdf env) (PDFParser.init pages))
  | Raise e => Raise e
  end.

Definition ppt_chunks (path : string) : outcome (list pyval) :=
  match Presentation env path with
  | Return presentation => fst (PPTParser.parse_file (PPTParser.init presentation))
  | Raise e => Raise e
  end.

Definition docx_chunks (path : string) : outcome (list pyval) :=
  match Document env path with
  | Return d => fst (DocxParser.parse_file (DocxParser.init d))
  | Raise e => Raise e
  end.

Definition parse_file : IO unit :=
  self <- get_self ;;
  if String.eqb (file_path self) "" || String.eqb (file_type self) "" then
    print "Error: Please select a file first"
  else
    print "Checking file type..." ;;
    if String.eqb (file_type self) "csv" then
      if negb (endswith (file_path self) ".csv") then
        print "Error: File type does not match the file extension"
      else
        print "File type matches the file extension" ;;
        logical_chunks <- call (CSVParser.extract (pd_read_csv env) (file_path self)) ;;
        print "Parsing csv file..." ;;
        write (Value (PDict logical_chunks))
    else if String.eqb (file_type self) "tsv" then
      if negb (endswith (file_path self) ".tsv") then
        print "Error: File type does not match the file extension"
      else
        print "File type matches the file extension" ;;
        logical_chunks <- call (TSVParser.extract (pd_read_csv env) (file_path self)) ;;
        print "Parsing tsv file..." ;;
        write (Value (PDict logical_chunks))
    else if String.eqb (file_type self) "pdf" then
      if negb (endswith (file_path self) ".pdf") then
        print "Error: File type does not match the file extension"
      else
        print "File type matches the file extension" ;;
        logical_chunks <- call (pdf_chunks (file_path self)) ;;
        print "Parsing pdf file..." ;;
        write (Value (PList logical_chunks))
    else if String.eqb (file_type self) "ppt" then
      if negb (endswith (file_path self) ".pptx") then
        print "Error: File type does not match the file extension"
      else
        print "File type matches the file extension" ;;
        logical_chunks <- call (ppt_chunks (file_path self)) ;;
        print "Parsing pptx file..." ;;
        write (Value (PList logical_chunks))
    else if String.eqb (file_type self) "docx" then
      if negb (endswith (file_path self) ".docx") then
        print "Error: File type does not match the file extension"
      else
        print "File type matches the file extension" ;;
        logical_chunks <- call (docx_chunks (file_path self)) ;;
        print "Parsing docx file..." ;;
        write (Value (PList logical_chunks))
    else io_ret tt.

(** [while True: ...] of [run].  Every pass reads one line at least, so a
    loop that is given more passes than there are lines to read is never cut
    short; [None] stands for a loop cut short. *)
Fixpoint run_loop (passes : nat) (w : t) : option (result unit * t) :=
  match passes with
  | O => None
  | S passes' =>
      match (display_menu ;; input "Enter your choice: ") w with
      | (Failed f, w') => Some (Failed f, w')
      | (Ok choice, w') =>
          if String.eqb choice "1" then
            match select_file w' with
            | (Ok _, w'') => run_loop passes' w''
            | (Failed f, w'') => Some (Failed f, w'')
            end
          else if String.eqb choice "2" then
            match parse_file w' with
            | (Ok _, w'') => run_loop passes' w''
            | (Failed f, w'') => Some (Failed f, w'')
            end
          else if String.eqb choice "3" then
            Some (print "Exiting..." w')
          else
            match print "Invalid choice. Please try again." w' with
            | (Ok _, w'') => run_loop passes' w''
            | (Failed f, w'') => Some (Failed f, w'')
            end
      end
  end.

Definition run (w : t) : option (result unit * t) :=
  run_loop (S (List.length (stdin w))) w.

End WithDecoders.
End FileParser.

(** ** What the proofs speak about *)

(** The chunks a loop [for x in xs: self.chunks.append(mk x len(self.chunks))]
    appends to a list that holds [n] chunks. *)
Fixpoint emit {X} (mk : X -> Z -> pyval) (xs : list X) (n : nat) : list pyval :=
  match xs with
  | [] => []
  | x :: rest => mk x (Z.of_nat n) :: emit mk rest (S n)
  end.

(** The integer a chunk holds under [order], read off the chunk itself. *)
Definition int_order (c : pyval) : option Z :=
  match c with
  | PDict d =>
      match dict_get "order" d with
      | Some (PInt n) => Some n
      | _ => None
      end
  | _ => None
  end.

(** Every chunk's [order] is its position, counted from [n]. *)
Fixpoint indexed_from (n : nat) (cs : list pyval) : Prop :=
  match cs with
  | [] => True
  | c :: rest => int_order c = Some (Z.of_nat n) /\ indexed_from (S n) rest
  end.

Definition carries_order (c : pyval) : Prop :=
  exists v, getitem c "order" = Return v.

(** [chunk[i].order < chunk[i+1].order] for every adjacent pair. *)
Definition order_monotone (cs : list pyval) : Prop :=
  forall i a b,
    nth_error cs i = Some a -> nth_error cs (S i) = Some b ->
    exists x y, int_order a = Some x /\ int_order b = Some y /\ x < y.

(** The [order] of every chunk is its position in the list, so no two
    positions share an [order]. *)
Definition in_emission_order (cs : list pyval) : Prop :=
  forall i c, nth_error cs i = Some c -> int_order c = Some (Z.of_nat i).

Definition order_unique (cs : list pyval) : Prop :=
  forall i j a b,
    nth_error cs i = Some a -> nth_error cs j = Some b ->
    int_order a = int_order b -> i = j.

(** Ascending by the [order] the chunks hold, and the chunks of one
    [order]. *)
Definition order_le (a b : pyval) : Prop :=
  match int_order a, int_order b with
  | Some x, Some y => x <= y
  | _, _ => False
  end.

Definition has_order (k : Z) (c : pyval) : bool :=
  match int_order c with
  | Some n => n =? k
  | None => false
  end.

(** The [type] tag of a chunk, when it has one. *)
Definition is_kind (kind : string) (c : pyval) : bool :=
  match getitem c "type" with
  | Return (PStr t) => String.eqb t kind
  | _ => false
  end.

(** What [decorate] establishes: every pair holds an element with its
    key. *)
Definition keyed {A K} (key : A -> outcome K) (p : K * A) : Prop :=
  key (snd p) = Return (fst p).

(** The stable insertion sort on integer keys, without exceptions: what the
    sequencing step computes when every key is an integer. *)
Definition key_le {A} (p q : Z * A) : Prop := fst p <= fst q.

Fixpoint insert_int {A} (p : Z * A) (l : list (Z * A)) : list (Z * A) :=
  match l with
  | [] => [p]
  | q :: rest => if fst q <? fst p then q :: insert_int p rest else p :: q :: rest
  end.

Fixpoint sort_int {A} (l : list (Z * A)) : list (Z * A) :=
  match l with
  | [] => []
  | p :: rest => insert_int p (sort_int rest)
  end.

Definition int_keyed {A} (p : Z * A) : pyval * A := (PInt (fst p), snd p).

(** A pair holds a chunk with the integer it carries. *)
Definition with_order (p : Z * pyval) : Prop := int_order (snd p) = Some (fst p).

(** A decorated list in which no element is smaller than the one before:
    the comparison the sort makes between two neighbours says so. *)
Fixpoint ascending {A K} (lt : K -> K -> outcome bool) (l : list (K * A)) : Prop :=
  match l with
  | [] => True
  | p :: rest =>
      match rest with
      | [] => True
      | q :: _ => lt (fst q) (fst p) = Return false
      end /\ ascending lt rest
  end.

(** What a Tabular Result holds for a column: its cells as a list. *)
Definition column_entry (df : DataFrame) (label : string) : option pyval :=
  match column_tolist df label with
  | Return cells => Some (PList cells)
  | Raise _ => None
  end.

Definition is_label (k : string) (labels : list string) : bool :=
  existsb (fun l => String.eqb l k) labels.

(** The tables a page contributes: what detection returns on its text. *)
Definition detected (read_pdf : string -> outcome (list DataFrame)) (page : Page)
  : list DataFrame :=
  match read_pdf (extract_text page) with
  | Return tables => tables
  | Raise _ => []
  end.

(** The chunks one pass of [for page in self.reader.pages] appends to a list
    of [n] chunks before it raises: the paragraphs, then the tables that
    detection returned. *)
Definition page_emitted (read_pdf : string -> outcome (list DataFrame))
    (page : Page) (n : nat) : list pyval :=
  let ps := emit PDFParser.paragraph_chunk
                 (str_split (extract_text page) (String.append nl nl)) n in
  ps ++ emit PDFParser.table_chunk (detected read_pdf page) (n + List.length ps).

(** The exception a pass over a page ends with: that of table detection,
    or that of [page.extract_images()] when detection returned. *)
Definition page_exception (read_pdf : string -> outcome (list DataFrame))
    (page : Page) : exn :=
  match read_pdf (extract_text page) with
  | Raise e => e
  | Return _ => AttributeError "extract_images"
  end.

(** The chunks of the three passes of [DocxParser.parse_file]. *)
Definition docx_paragraph_chunk (para : Paragraph) : pyval :=
  if startswith (style_name para) "List"
  then PDict [("type", PStr "list"); ("data", PStr (text para))]
  else PStr (text para).

Definition docx_table_chunk (table : list (list string)) : pyval :=
  PList (map (fun row => PList (map PStr row)) table).

(** The [text] of a paragraph chunk. *)
Definition chunk_text (c : pyval) : string :=
  match getitem c "text" with
  | Return (PStr s) => s
  | _ => ""
  end.

(** A shape that reaches the table branch: no text frame and the type
    code 19. *)
Definition table_branch (shape : Shape) : bool :=
  negb (has_text_frame shape) && (shape_type shape =? 19).

(** The shapes [PPTParser] makes a chunk of, and the chunk it makes of one
    when [n] chunks are there. *)
Definition content_bearing (shape : Shape) : bool :=
  has_text_frame shape || (shape_type shape =? 13).

Definition shape_chunk (shape : Shape) (n : nat) : pyval :=
  if has_text_frame shape
  then PPTParser.paragraph_chunk (PPTParser.frame_text (text_frame shape)) (Z.of_nat n)
  else PPTParser.image_chunk (image shape) (Z.of_nat n).

Fixpoint shape_chunks (shapes : list Shape) (n : nat) : list pyval :=
  match shapes with
  | [] => []
  | shape :: rest =>
      if content_bearing shape
      then shape_chunk shape n :: shape_chunks rest (S n)
      else shape_chunks rest n
  end.

Definition known_kind (c : pyval) : bool :=
  is_kind "paragraph" c || is_kind "table" c || is_kind "image" c.

(** The extension [FileParser.parse_file] asks of a path for each file
    type, and the name it prints for the type. *)
Definition extension (type : string) : string :=
  if String.eqb type "ppt" then ".pptx" else String.append "." type.

Definition printed_name (type : string) : string :=
  if String.eqb type "ppt" then "pptx" else type.

(** What the parser class of a file type returns for a path, as the value
    [FileParser.parse_file] prints. *)
Definition logical_chunks (env : Decoders) (type path : string) : outcome pyval :=
  let as_list (o : outcome (list pyval)) :=
    match o with Return cs => Return (PList cs) | Raise e => Raise e end in
  let as_dict (o : outcome dict) :=
    match o with Return d => Return (PDict d) | Raise e => Raise e end in
  if String.eqb type "csv" then as_dict (CSVParser.extract (pd_read_csv env) path)
  else if String.eqb type "tsv" then as_dict (TSVParser.extract (pd_read_csv env) path)
  else if String.eqb type "pdf" then as_list (FileParser.pdf_chunks env path)
  else if String.eqb type "ppt" then as_list (FileParser.ppt_chunks env path)
  else as_list (FileParser.docx_chunks env path).

(** The console after more output. *)
Definition printed (w : FileParser.t) (os : list output) : FileParser.t :=
  {| FileParser.file_path := FileParser.file_path w;
     FileParser.file_type := FileParser.file_type w;
     FileParser.stdin := FileParser.stdin w;
     FileParser.stdout := FileParser.stdout w ++ os |}.

(** What one pass of [run] writes before it reads the choice. *)
Definition menu_lines : list output :=
  [Line "File Parser Menu"; Line "----------------"; Line "1. Select File";
   Line "2. Parse File"; Line "3. Exit"; Prompt "Enter your choice: "].

(** ** Sample documents *)

(** A table detector that cannot parse the text [bad] and finds no table
    anywhere else. *)
Definition sample_read_pdf (text : string) : outcome (list DataFrame) :=
  if String.eqb text "bad" then Raise (DecoderError "cannot parse") else Return [].

Definition sample_page (text : string) : Page := {| extract_text := text |}.

Definition sample_pdf : list Page :=
  [sample_page (String.append "one" (String.append nl (String.append nl "two")));
   sample_page "three"].

Definition sample_pdf_failing : list Page :=
  [sample_page "bad"; sample_page "second"; sample_page "third"].

(** A document without inline images, and the same document with one. *)
Definition sample_docx : Docx :=
  {| paragraphs := [ {| style_name := "Normal"; text := "hello" |};
                     {| style_name := "List Bullet"; text := "item" |} ];
     tables := [[["a"; "b"]; ["c"; "d"]]];
     inline_shapes := [] |}.

Definition sample_docx_with_image : Docx :=
  {| paragraphs := paragraphs sample_docx;
     tables := tables sample_docx;
     inline_shapes := [1%nat] |}.

Definition sample_text_table_shape : Shape :=
  {| has_text_frame := true; text_frame := ["title"]; shape_type := 19;
     table := [["h1"; "h2"]; ["c1"; "c2"]]; image := 0%nat |}.

Definition sample_text_shape : Shape :=
  {| has_text_frame := true; text_frame := ["title"]; shape_type := 17;
     table := []; image := 0%nat |}.

Definition sample_table_shape : Shape :=
  {| has_text_frame := false; text_frame := []; shape_type := 19;
     table := [["h1"; "h2"]; ["c1"; "c2"]; ["d1"; "d2"]]; image := 0%nat |}.

Definition sample_picture_shape : Shape :=
  {| has_text_frame := false; text_frame := []; shape_type := 13;
     table := []; image := 5%nat |}.

(** A presentation of text and pictures, and one with a table. *)
Definition sample_pptx : list (list Shape) :=
  [[sample_text_shape]; [sample_picture_shape]].

Definition sample_pptx_with_table : list (list Shape) :=
  [[sample_text_shape; sample_table_shape]; [sample_picture_shape]].

Definition sample_frame : DataFrame :=
  {| columns := ["name"; "headers"];
     values := [[PStr "ann"; PInt 1]; [PStr "bob"; PInt 2]] |}.

Definition sample_plain_frame : DataFrame :=
  {| columns := ["name"; "age"];
     values := [[PStr "ann"; PInt 31]; [PStr "bob"; PInt 27]] |}.

(** A reader that knows two files holding the grid of [sample_frame], one
    comma-delimited and one tab-delimited. *)
Definition sample_read_csv (file_path delimiter : string) : outcome DataFrame :=
  if (String.eqb file_path "people.csv" && String.eqb delimiter ",")
     || (String.eqb file_path "people.tsv" && String.eqb delimiter tab)
  then Return sample_frame
  else Raise (DecoderError "cannot read").

(** A reader that knows two files holding the grid of [sample_plain_frame],
    one comma-delimited and one tab-delimited. *)
Definition sample_read_plain (file_path delimiter : string) : outcome DataFrame :=
  if (String.eqb file_path "ages.csv" && String.eqb delimiter ",")
     || (String.eqb file_path "ages.tsv" && String.eqb delimiter tab)
  then Return sample_plain_frame
  else Raise (DecoderError "cannot read").

(** A menu on which a path and a type have been selected. *)
Definition sample_selection (path type : string) : FileParser.t :=
  {| FileParser.file_path := path; FileParser.file_type := type;
     FileParser.stdin := []; FileParser.stdout := [] |}.

(** Decoders that know one file of every type. *)
Definition sample_env : Decoders :=
  {| PdfReader := fun path =>
       if String.eqb path "notes.pdf" then Return sample_pdf
       else Raise (DecoderError "cannot open");
     tabula_read_pdf := sample_read_pdf;
     Document := fun path =>
       if String.eqb path "letter.docx" then Return sample_docx
       else Raise (DecoderError "cannot open");
     Presentation := fun path =>
       if String.eqb path "talk.pptx" then Return sample_pptx
       else Raise (DecoderError "cannot open");
     pd_read_csv := sample_read_csv |}.

(** * Loops *)

Section Loops.
Context {S X : Type}.
Implicit Types (body : X -> M S unit) (s : S).

Lemma for_each_cons x xs body s :
  for_each (x :: xs) body s =
  match body x s with
  | (Return _, s') => for_each xs body s'
  | (Raise e, s') => (Raise e, s')
  end.
Proof. reflexivity. Qed.

Lemma for_each_app xs ys body s :
  for_each (xs ++ ys) body s =
  match for_each xs body s with
  | (Return _, s') => for_each ys body s'
  | (Raise e, s') => (Raise e, s')
  end.
Proof.
  revert s. induction xs as [|x xs IH]; intros s; [reflexivity|].
  rewrite <- app_comm_cons, !for_each_cons.
  destruct (body x s) as [[[]|e] s']; [apply IH | reflexivity].
Qed.

(** A property of the attribute that every pass through the body keeps,
    whether the pass returns or raises, holds when the loop is left. *)
Lemma for_each_invariant (P : S -> Prop) xs body s :
  (forall x s0, P s0 -> P (snd (body x s0))) ->
  P s -> P (snd (for_each xs body s)).
Proof.
  intros Hbody. revert s. induction xs as [|x xs IH]; intros s Hs; [exact Hs|].
  rewrite for_each_cons. specialize (Hbody x s Hs).
  destruct (body x s) as [[[]|e] s']; simpl in *; auto.
Qed.

Lemma for_each_total xs body s :
  (forall x s0, In x xs -> exists s1, body x s0 = (Return tt, s1)) ->
  exists s', for_each xs body s = (Return tt, s').
Proof.
  revert s. induction xs as [|x xs IH]; intros s Hbody; [eexists; reflexivity|].
  rewrite for_each_cons.
  destruct (Hbody x s (or_introl eq_refl)) as [s1 ->].
  apply IH. intros y s0 Hy. apply Hbody. now right.
Qed.
End Loops.

Lemma for_each_append_chunk {X} (mk : X -> Z -> pyval) xs chunks :
  for_each xs (fun x => append_chunk (mk x)) chunks =
  (Return tt, chunks ++ emit mk xs (List.length chunks)).
Proof.
  revert chunks. induction xs as [|x xs IH]; intros chunks; simpl.
  - now rewrite app_nil_r.
  - unfold bind, append_chunk at 1. rewrite IH, length_app, Nat.add_1_r, <- app_assoc.
    reflexivity.
Qed.

Lemma emit_length {X} (mk : X -> Z -> pyval) xs n :
  List.length (emit mk xs n) = List.length xs.
Proof. revert n. induction xs; intros; simpl; auto. Qed.

(** * Positions as order keys *)

Lemma indexed_from_app n a b :
  indexed_from n (a ++ b) <-> indexed_from n a /\ indexed_from (n + List.length a) b.
Proof.
  revert n. induction a as [|c a IH]; intros n; simpl.
  - rewrite Nat.add_0_r. tauto.
  - rewrite IH, <- plus_n_Sm. simpl. tauto.
Qed.

Lemma indexed_from_emit {X} (mk : X -> Z -> pyval) xs n :
  (forall x k, int_order (mk x k) = Some k) ->
  indexed_from n (emit mk xs n).
Proof.
  intros Hmk. revert n. induction xs as [|x xs IH]; intros n; simpl; auto.
Qed.

Lemma indexed_from_nth n cs i c :
  indexed_from n cs -> nth_error cs i = Some c ->
  int_order c = Some (Z.of_nat (n + i)).
Proof.
  revert n i. induction cs as [|c0 cs IH]; intros n [|i] H Hnth;
    simpl in Hnth; try discriminate; destruct H as [H0 Hrest].
  - injection Hnth as <-. now rewrite Nat.add_0_r.
  - rewrite <- plus_n_Sm. apply (IH (Datatypes.S n) i Hrest Hnth).
Qed.

(** The key the lambda returns for a chunk that holds an integer [order]. *)
Lemma int_order_key c n : int_order c = Some n -> order_key c = Return (PInt n).
Proof.
  unfold int_order, order_key, getitem. destruct c as [| | | | | |d| |]; try discriminate.
  destruct (dict_get "order" d) as [[]|]; try discriminate. now intros [= ->].
Qed.

Lemma int_order_carries c n : int_order c = Some n -> carries_order c.
Proof. intros H. exists (PInt n). exact (int_order_key c n H). Qed.

Lemma indexed_carries cs : indexed_from 0 cs -> Forall carries_order cs.
Proof.
  intros H. apply Forall_forall. intros c Hc.
  destruct (In_nth_error _ _ Hc) as [i Hi].
  exact (int_order_carries _ _ (indexed_from_nth _ _ _ _ H Hi)).
Qed.

Lemma indexed_monotone cs : indexed_from 0 cs -> order_monotone cs.
Proof.
  intros H i a b Ha Hb.
  exists (Z.of_nat i), (Z.of_nat (Datatypes.S i)).
  repeat split.
  - exact (indexed_from_nth _ _ _ _ H Ha).
  - exact (indexed_from_nth _ _ _ _ H Hb).
  - lia.
Qed.

(** * The sequencing step: [sorted(chunks, key=lambda x: x["order"])] *)

(** ** The sort with comparisons that may raise *)

Section RaisingSort.
Context {A K : Type}.
Variable lt : K -> K -> outcome bool.
Implicit Types (p q : K * A) (l : list (K * A)).

Lemma insert_keyed_perm p l l' :
  insert_keyed lt p l = Return l' -> Permutation (p :: l) l'.
Proof.
  revert l'. induction l as [|q l IH]; intros l' H; simpl in H.
  - injection H as <-. reflexivity.
  - destruct (lt (fst q) (fst p)) as [[|]|e]; try discriminate.
    + destruct (insert_keyed lt p l) as [l''|e]; [|discriminate].
      injection H as <-. rewrite perm_swap. constructor. now apply IH.
    + injection H as <-. reflexivity.
Qed.

Lemma sort_keyed_perm l s : sort_keyed lt l = Return s -> Permutation l s.
Proof.
  revert s. induction l as [|p l IH]; intros s H; simpl in H.
  - injection H as <-. constructor.
  - destruct (sort_keyed lt l) as [s'|e]; [|discriminate].
    rewrite <- (insert_keyed_perm _ _ _ H). constructor. now apply IH.
Qed.

Lemma insert_keyed_head p l l' :
  insert_keyed lt p l = Return l' ->
  exists tl', l' = p :: tl' \/ (exists q tl, l = q :: tl /\ l' = q :: tl').
Proof.
  destruct l as [|q l]; simpl; intros H.
  - injection H as <-. exists []. now left.
  - destruct (lt (fst q) (fst p)) as [[|]|e]; try discriminate.
    + destruct (insert_keyed lt p l) as [l''|e]; [|discriminate].
      injection H as <-. exists l''. right. now exists q, l.
    + injection H as <-. eexists. now left.
Qed.

(** When [a < b] holds, [b < a] is answered, and with no. *)
Hypothesis lt_asym : forall a b, lt a b = Return true -> lt b a = Return false.

Lemma insert_keyed_ascending p l l' :
  ascending lt l -> insert_keyed lt p l = Return l' -> ascending lt l'.
Proof.
  revert l'. induction l as [|q l IH]; intros l' Hl H; simpl in H.
  - injection H as <-. simpl. tauto.
  - destruct (lt (fst q) (fst p)) as [[|]|e] eqn:Hqp; try discriminate.
    + destruct (insert_keyed lt p l) as [l''|e] eqn:Hins; [|discriminate].
      injection H as <-. destruct Hl as [Hq Hl]. specialize (IH l'' Hl eq_refl).
      split; [|exact IH].
      destruct (insert_keyed_head p l l'' Hins) as [tl' [->|(q' & tl & -> & ->)]].
      * now apply lt_asym.
      * exact Hq.
    + injection H as <-. split; [exact Hqp | exact Hl].
Qed.

Lemma sort_keyed_ascending l s : sort_keyed lt l = Return s -> ascending lt s.
Proof.
  revert s. induction l as [|p l IH]; intros s H; simpl in H.
  - injection H as <-. exact I.
  - destruct (sort_keyed lt l) as [s'|e]; [|discriminate].
    eapply insert_keyed_ascending; [now apply IH | exact H].
Qed.

End RaisingSort.

Lemma sort_keyed_fixed {A K} (lt : K -> K -> outcome bool) (l : list (K * A)) :
  ascending lt l -> sort_keyed lt l = Return l.
Proof.
  induction l as [|p l IH]; [reflexivity|]. intros [Hp Hl].
  cbn [sort_keyed]. rewrite (IH Hl). destruct l as [|q l]; [reflexivity|].
  cbn [insert_keyed]. now rewrite Hp.
Qed.

Section Decorate.
Context {A K : Type}.
Variable key : A -> outcome K.

Lemma decorate_total xs :
  Forall (fun x => exists k, key x = Return k) xs ->
  exists ds, decorate key xs = Return ds.
Proof.
  induction 1 as [|x xs [k Hk] _ [ds IH]]; simpl; [now eexists|].
  rewrite Hk, IH. now eexists.
Qed.

Lemma decorate_spec xs ds :
  decorate key xs = Return ds -> map snd ds = xs /\ Forall (keyed key) ds.
Proof.
  revert ds. induction xs as [|x xs IH]; simpl; intros ds H.
  - injection H as <-. split; constructor.
  - destruct (key x) as [k|e] eqn:Hk; [|discriminate].
    destruct (decorate key xs) as [ds'|e] eqn:Hd; [|discriminate].
    injection H as <-. destruct (IH ds' eq_refl) as [Hm Hf].
    split; [simpl; now rewrite Hm | constructor; [exact Hk | exact Hf]].
Qed.

Lemma decorate_raises pre c post e :
  Forall (fun x => exists k, key x = Return k) pre ->
  key c = Raise e ->
  decorate key (pre ++ c :: post) = Raise e.
Proof.
  induction 1 as [|x pre [k Hk] _ IH]; intros Hc; simpl.
  - now rewrite Hc.
  - now rewrite Hk, IH.
Qed.

Lemma decorate_keyed (l : list (K * A)) :
  Forall (keyed key) l -> decorate key (map snd l) = Return l.
Proof.
  induction 1 as [|[k x] l Hp _ IH]; [reflexivity|].
  unfold keyed in Hp. simpl in *. now rewrite Hp, IH.
Qed.

End Decorate.

Lemma string_ltb_asym s t : String.ltb s t = true -> String.ltb t s = false.
Proof.
  unfold String.ltb. rewrite (String.compare_antisym t s).
  now destruct (String.compare s t).
Qed.

Lemma py_lt_asym a b : py_lt a b = Return true -> py_lt b a = Return false.
Proof.
  destruct a as [|x|s|s| | | | |], b as [|y|t|t| | | | |]; simpl; try discriminate;
    intros H; injection H as H; f_equal.
  - apply Z.ltb_lt in H. apply Z.ltb_ge. lia.
  - now apply string_ltb_asym.
  - now apply string_ltb_asym.
Qed.

Lemma sorted_fixed xs out :
  sorted xs order_key = Return out -> sorted out order_key = Return out.
Proof.
  unfold sorted. destruct (decorate order_key xs) as [ds|e] eqn:Hds; [|discriminate].
  destruct (sort_keyed py_lt ds) as [s|e] eqn:Hs; [|discriminate].
  intros H. injection H as <-.
  destruct (decorate_spec order_key xs ds Hds) as [_ Hkeyed].
  assert (Hkeyed' : Forall (keyed order_key) s).
  { rewrite Forall_forall in *. intros q Hq. apply Hkeyed.
    eapply Permutation_in; [symmetry; eapply sort_keyed_perm; exact Hs | exact Hq]. }
  rewrite (decorate_keyed order_key s Hkeyed').
  now rewrite (sort_keyed_fixed py_lt s (sort_keyed_ascending py_lt py_lt_asym ds s Hs)).
Qed.

(** ** Integer keys: the sort never raises *)

Section IntSort.
Context {A : Type}.
Implicit Types (p q : Z * A) (l : list (Z * A)).

Lemma insert_int_keyed p l :
  insert_keyed py_lt (int_keyed p) (map int_keyed l) =
  Return (map int_keyed (insert_int p l)).
Proof.
  induction l as [|q l IH]; [reflexivity|].
  cbn [map insert_keyed insert_int int_keyed fst snd py_lt].
  destruct (fst q <? fst p); [|reflexivity].
  fold (int_keyed p). now rewrite IH.
Qed.

Lemma sort_int_keyed l :
  sort_keyed py_lt (map int_keyed l) = Return (map int_keyed (sort_int l)).
Proof.
  induction l as [|p l IH]; [reflexivity|].
  cbn [map sort_keyed sort_int]. rewrite IH. apply insert_int_keyed.
Qed.

Lemma insert_int_perm p l : Permutation (p :: l) (insert_int p l).
Proof.
  induction l as [|q l IH]; simpl; [reflexivity|].
  destruct (fst q <? fst p); [|reflexivity].
  rewrite perm_swap. now constructor.
Qed.

Lemma sort_int_perm l : Permutation l (sort_int l).
Proof.
  induction l as [|p l IH]; simpl; [reflexivity|].
  rewrite <- insert_int_perm. now constructor.
Qed.

Lemma insert_int_sorted p l :
  StronglySorted key_le l -> StronglySorted key_le (insert_int p l).
Proof.
  induction 1 as [|q l Hl IH Hq]; simpl.
  - repeat constructor.
  - destruct (Z.ltb_spec (fst q) (fst p)) as [Hlt|Hge].
    + constructor; [exact IH|].
      rewrite <- insert_int_perm. constructor; [unfold key_le; lia | exact Hq].
    + constructor; [now constructor|].
      constructor; [exact Hge|].
      eapply Forall_impl; [|exact Hq]. unfold key_le. intros; lia.
Qed.

Lemma sort_int_sorted l : StronglySorted key_le (sort_int l).
Proof.
  induction l; simpl; [constructor | now apply insert_int_sorted].
Qed.

(** Stability: among the elements of one key nothing moves. *)
Lemma insert_int_filter k p l :
  filter (fun q => fst q =? k) (insert_int p l) =
  filter (fun q => fst q =? k) (p :: l).
Proof.
  induction l as [|q l IH]; [reflexivity|].
  cbn [insert_int]. destruct (Z.ltb_spec (fst q) (fst p)) as [Hlt|Hge]; [|reflexivity].
  cbn [filter] in *. rewrite IH.
  destruct (Z.eqb_spec (fst q) k), (Z.eqb_spec (fst p) k); try reflexivity; lia.
Qed.

Lemma sort_int_filter k l :
  filter (fun q => fst q =? k) (sort_int l) = filter (fun q => fst q =? k) l.
Proof.
  induction l as [|p l IH]; [reflexivity|].
  cbn [sort_int]. rewrite insert_int_filter. cbn [filter]. now rewrite IH.
Qed.

(** A list whose keys already ascend is left as it is. *)
Lemma insert_int_head p l :
  match l with [] => True | q :: _ => fst p <= fst q end ->
  insert_int p l = p :: l.
Proof.
  destruct l as [|q l]; [reflexivity|]. simpl. intros H.
  destruct (Z.ltb_spec (fst q) (fst p)); [lia | reflexivity].
Qed.

End IntSort.

Lemma decorate_int cs :
  Forall (fun c => exists n, int_order c = Some n) cs ->
  exists zs,
    decorate order_key cs = Return (map int_keyed zs) /\
    map snd zs = cs /\ Forall with_order zs.
Proof.
  induction 1 as [|c cs [n Hn] _ (zs & Hd & Hm & Hw)].
  - exists []. repeat split. constructor.
  - exists ((n, c) :: zs). cbn [decorate map]. rewrite (int_order_key c n Hn), Hd.
    repeat split.
    + cbn [map snd]. now rewrite Hm.
    + constructor; [exact Hn | exact Hw].
Qed.

Lemma sorted_int cs zs :
  decorate order_key cs = Return (map int_keyed zs) ->
  sorted cs order_key = Return (map snd (sort_int zs)).
Proof.
  intros Hd. unfold sorted. rewrite Hd, sort_int_keyed.
  rewrite map_map. reflexivity.
Qed.

Lemma with_order_filter k zs :
  Forall with_order zs ->
  filter (has_order k) (map snd zs) = map snd (filter (fun q => fst q =? k) zs).
Proof.
  induction 1 as [|p zs Hp _ IH]; [reflexivity|].
  cbn [map filter]. unfold has_order at 1. unfold with_order in Hp. rewrite Hp, IH.
  now destruct (fst p =? k).
Qed.

Lemma with_order_sorted zs :
  Forall with_order zs -> StronglySorted key_le zs ->
  StronglySorted order_le (map snd zs).
Proof.
  intros Hw Hs. induction Hs as [|p zs Hzs IH Hp]; simpl; [constructor|].
  inversion Hw as [|? ? Hwp Hwzs]; subst.
  constructor; [now apply IH|].
  apply Forall_map. apply Forall_forall. intros q Hq.
  rewrite Forall_forall in Hp, Hwzs. specialize (Hp q Hq). specialize (Hwzs q Hq).
  unfold order_le, with_order in *. now rewrite Hwp, Hwzs.
Qed.

(** A list of chunks whose orders are their positions is its own sorted
    list. *)
Lemma decorate_indexed n cs :
  indexed_from n cs ->
  exists zs, decorate order_key cs = Return (map int_keyed zs) /\ map snd zs = cs /\
             sort_int zs = zs /\
             match zs with [] => True | z :: _ => fst z = Z.of_nat n end.
Proof.
  revert n. induction cs as [|c cs IH]; intros n H.
  - exists []. repeat split.
  - destruct H as [Hc Hrest]. destruct (IH _ Hrest) as (zs & Hd & Hm & Hs & Hh).
    exists ((Z.of_nat n, c) :: zs). cbn [decorate map].
    rewrite (int_order_key c _ Hc), Hd.
    repeat split.
    + cbn [map snd]. now rewrite Hm.
    + cbn [sort_int]. rewrite Hs. apply insert_int_head.
      destruct zs as [|z zs]; [exact I|]. rewrite Hh. cbn [fst]. lia.
Qed.

Lemma sorted_indexed cs : indexed_from 0 cs -> sorted cs order_key = Return cs.
Proof.
  intros H. destruct (decorate_indexed 0 cs H) as (zs & Hd & Hm & Hs & _).
  rewrite (sorted_int cs zs Hd). now rewrite Hs, Hm.
Qed.

(** C6.  The chunk sequencing step, [sorted(chunks, key=lambda x: x["order"])],
    applied to any list of chunks that each hold an integer under [order],
    returns a list that is a rearrangement of the input, ascends by the
    [order] the chunks hold, and in which the chunks of one [order] value
    stand in the same relative order as in the input: the sort is stable. *)
Theorem sequencer_stable_sort (chunks : list pyval) :
  Forall (fun c => exists n, int_order c = Some n) chunks ->
  exists out,
    sorted chunks order_key = Return out /\
    Permutation chunks out /\
    StronglySorted order_le out /\
    forall k, filter (has_order k) out = filter (has_order k) chunks.
Proof.
  intros H. destruct (decorate_int chunks H) as (zs & Hd & Hm & Hw).
  assert (Hw' : Forall with_order (sort_int zs)).
  { rewrite Forall_forall in *. intros q Hq. apply Hw.
    eapply Permutation_in; [symmetry; apply sort_int_perm | exact Hq]. }
  exists (map snd (sort_int zs)). split; [exact (sorted_int chunks zs Hd)|].
  split; [|split].
  - rewrite <- Hm. apply Permutation_map, sort_int_perm.
  - apply with_order_sorted; [exact Hw' | apply sort_int_sorted].
  - intros k. rewrite (with_order_filter k _ Hw'), sort_int_filter.
    rewrite <- (with_order_filter k _ Hw), Hm. reflexivity.
Qed.

Lemma sequencer_stable_sort_witness :
  sorted [PDict [("tag", PStr "a"); ("order", PInt 2)];
          PDict [("tag", PStr "b"); ("order", PInt 1)];
          PDict [("tag", PStr "c"); ("order", PInt 2)];
          PDict [("tag", PStr "d"); ("order", PInt 1)]] order_key =
  Return [PDict [("tag", PStr "b"); ("order", PInt 1)];
          PDict [("tag", PStr "d"); ("order", PInt 1)];
          PDict [("tag", PStr "a"); ("order", PInt 2)];
          PDict [("tag", PStr "c"); ("order", PInt 2)]] /\
  exists out,
    sorted [PDict [("tag", PStr "a"); ("order", PInt 2)];
            PDict [("tag", PStr "b"); ("order", PInt 1)];
            PDict [("tag", PStr "c"); ("order", PInt 2)];
            PDict [("tag", PStr "d"); ("order", PInt 1)]] order_key = Return out /\
    Permutation [PDict [("tag", PStr "a"); ("order", PInt 2)];
                 PDict [("tag", PStr "b"); ("order", PInt 1)];
                 PDict [("tag", PStr "c"); ("order", PInt 2)];
                 PDict [("tag", PStr "d"); ("order", PInt 1)]] out /\
    StronglySorted order_le out /\
    forall k, filter (has_order k) out =
              filter (has_order k)
                [PDict [("tag", PStr "a"); ("order", PInt 2)];
                 PDict [("tag", PStr "b"); ("order", PInt 1)];
                 PDict [("tag", PStr "c"); ("order", PInt 2)];
                 PDict [("tag", PStr "d"); ("order", PInt 1)]].
Proof.
  split; [reflexivity|].
  apply sequencer_stable_sort.
  repeat constructor; eexists; reflexivity.
Defined.

(** * The sequencing tail shared by [PDFParser] and [PPTParser] *)

Lemma sequenced_loop (loop : M (list pyval) unit) cs :
  indexed_from 0 (snd (loop cs)) ->
  (loop ;;
   chunks <- get ;;
   chunks <- lift (sorted chunks order_key) ;;
   put chunks ;;
   ret chunks) cs =
  match loop cs with
  | (Return _, cs') => (Return cs', cs')
  | (Raise e, cs') => (Raise e, cs')
  end.
Proof.
  unfold bind, get, lift, put, ret.
  destruct (loop cs) as [[[]|e] cs']; simpl; intros H; [|reflexivity].
  now rewrite (sorted_indexed cs' H).
Qed.

Lemma append_chunk_indexed (mk : Z -> pyval) cs :
  (forall k, int_order (mk k) = Some k) ->
  indexed_from 0 cs -> indexed_from 0 (snd (append_chunk mk cs)).
Proof.
  intros Hmk H. simpl. apply indexed_from_app. split; [exact H|].
  simpl. auto.
Qed.

Lemma indexed_result cs :
  indexed_from 0 cs ->
  in_emission_order cs /\ order_unique cs /\
  Forall carries_order cs /\ order_monotone cs.
Proof.
  intros H. split; [|split; [|split]].
  - intros i c Hi. exact (indexed_from_nth 0 cs i c H Hi).
  - intros i j a b Ha Hb Heq.
    rewrite (indexed_from_nth 0 cs i a H Ha), (indexed_from_nth 0 cs j b H Hb) in Heq.
    injection Heq as Heq. simpl in Heq. lia.
  - now apply indexed_carries.
  - now apply indexed_monotone.
Qed.

(** * PDFParser *)

Section PDF.
Variable read_pdf : string -> outcome (list DataFrame).

(** The pass over a page never returns: table detection raises, or
    [page.extract_images()] does. *)
Lemma parse_page_raises page cs :
  PDFParser.parse_page read_pdf page cs =
  (Raise (page_exception read_pdf page),
   cs ++ page_emitted read_pdf page (List.length cs)).
Proof.
  unfold PDFParser.parse_page, page_exception, page_emitted, detected, bind at 1.
  rewrite for_each_append_chunk. unfold bind at 1, lift at 1.
  destruct (read_pdf (extract_text page)) as [tables|e].
  - unfold bind at 1. rewrite for_each_append_chunk.
    unfold bind, lift, extract_images.
    now rewrite length_app, emit_length, <- app_assoc.
  - cbn [emit]. now rewrite app_nil_r.
Qed.

Lemma page_emitted_indexed page n :
  indexed_from n (page_emitted read_pdf page n).
Proof.
  unfold page_emitted. cbv zeta. rewrite indexed_from_app.
  split; now apply indexed_from_emit.
Qed.

Lemma parse_page_indexed page cs :
  indexed_from 0 cs -> indexed_from 0 (snd (PDFParser.parse_page read_pdf page cs)).
Proof.
  intros H. rewrite parse_page_raises. simpl. apply indexed_from_app.
  split; [exact H | apply page_emitted_indexed].
Qed.

Lemma pdf_loop_indexed pages cs :
  indexed_from 0 cs ->
  indexed_from 0 (snd (for_each pages (PDFParser.parse_page read_pdf) cs)).
Proof.
  apply for_each_invariant. intros page s0. apply parse_page_indexed.
Qed.

Lemma pdf_parse_file_init pages :
  fst (PDFParser.parse_file read_pdf (PDFParser.init pages)) =
  match for_each pages (PDFParser.parse_page read_pdf) [] with
  | (Return _, cs') => Return cs'
  | (Raise e, _) => Raise e
  end.
Proof.
  unfold PDFParser.parse_file, PDFParser.init, PDFParser.parse_pages.
  cbn [PDFParser.reader_pages PDFParser.chunks].
  rewrite sequenced_loop by (apply pdf_loop_indexed; exact I).
  now destruct (for_each pages (PDFParser.parse_page read_pdf) []) as [[[]|e] cs'].
Qed.

(** A call on a parser that has a page ends in the first pass of the loop,
    whatever [self.chunks] held. *)
Lemma pdf_parse_file_cons page post cs :
  PDFParser.parse_file read_pdf
    {| PDFParser.reader_pages := page :: post; PDFParser.chunks := cs |} =
  (Raise (page_exception read_pdf page),
   {| PDFParser.reader_pages := page :: post;
      PDFParser.chunks := cs ++ page_emitted read_pdf page (List.length cs) |}).
Proof.
  unfold PDFParser.parse_file, PDFParser.parse_pages.
  cbn [PDFParser.reader_pages PDFParser.chunks].
  unfold bind at 1. rewrite for_each_cons, parse_page_raises. reflexivity.
Qed.

End PDF.

(** * PPTParser *)

Lemma string_append_assoc (a b c : string) :
  String.append (String.append a b) c = String.append a (String.append b c).
Proof. induction a as [|ch a IH]; simpl; [reflexivity | now rewrite IH]. Qed.

Lemma string_append_empty_r (a : string) : String.append a "" = a.
Proof. induction a as [|ch a IH]; simpl; [reflexivity | now rewrite IH]. Qed.

Lemma fold_left_text (frame : list string) (acc : string) :
  fold_left (fun text paragraph => String.append text (String.append paragraph nl)) frame acc =
  String.append acc (String.concat "" (map (fun p => String.append p nl) frame)).
Proof.
  revert acc. induction frame as [|p frame IH]; intros acc.
  - simpl. now rewrite string_append_empty_r.
  - cbn [fold_left map]. rewrite IH, string_append_assoc. f_equal.
    destruct frame as [|q frame]; [simpl; now rewrite string_append_empty_r|reflexivity].
Qed.

(** Each paragraph is followed by a newline: the text is the paragraphs
    joined by newlines with one more newline at the end. *)
Lemma frame_text_terminated (frame : list string) :
  PPTParser.frame_text frame = String.concat "" (map (fun p => String.append p nl) frame).
Proof. unfold PPTParser.frame_text. now rewrite fold_left_text. Qed.

Lemma terminated_join (frame : list string) :
  frame <> [] ->
  String.concat "" (map (fun p => String.append p nl) frame) =
  String.append (String.concat nl frame) nl.
Proof.
  induction frame as [|p frame IH]; [congruence|]. intros _.
  destruct frame as [|q frame]; [reflexivity|].
  change (String.concat "" (map (fun p => String.append p nl) (p :: q :: frame)))
    with (String.append (String.append p nl)
            (String.concat "" (map (fun p => String.append p nl) (q :: frame)))).
  rewrite IH by discriminate.
  change (String.concat nl (p :: q :: frame))
    with (String.append p (String.append nl (String.concat nl (q :: frame)))).
  now rewrite !string_append_assoc.
Qed.

Lemma parse_shape_text shape cs :
  has_text_frame shape = true ->
  PPTParser.parse_shape shape cs =
  (Return tt,
   cs ++ [PPTParser.paragraph_chunk (PPTParser.frame_text (text_frame shape))
                                    (Z.of_nat (List.length cs))]).
Proof. intros H. unfold PPTParser.parse_shape. now rewrite H. Qed.

(** What the body of the shape loop does, shape by shape: the table branch
    raises at [rows[0]] when the table has no row and at [rows[1:]]
    otherwise; every other shape gives its chunk or nothing. *)
Lemma parse_shape_cases shape cs :
  (table_branch shape = false /\
   PPTParser.parse_shape shape cs =
     (Return tt,
      cs ++ if content_bearing shape then [shape_chunk shape (List.length cs)] else [])) \/
  (table_branch shape = true /\
   PPTParser.parse_shape shape cs =
     (Raise (match table shape with [] => IndexError | _ :: _ => TypeError end), cs)).
Proof.
  unfold table_branch, content_bearing, shape_chunk, PPTParser.parse_shape.
  destruct (has_text_frame shape); [left; split; reflexivity|].
  cbn [negb andb orb]. destruct (shape_type shape =? 19) eqn:H19.
  - right. split; [reflexivity|]. unfold bind, lift, PPTParser.rows_from.
    now destruct (table shape).
  - left. split; [reflexivity|].
    destruct (shape_type shape =? 13); [reflexivity|].
    unfold ret. now rewrite app_nil_r.
Qed.

Lemma shape_chunk_order shape n : int_order (shape_chunk shape n) = Some (Z.of_nat n).
Proof. unfold shape_chunk. now destruct (has_text_frame shape). Qed.

Lemma parse_shape_indexed shape cs :
  indexed_from 0 cs -> indexed_from 0 (snd (PPTParser.parse_shape shape cs)).
Proof.
  intros H. destruct (parse_shape_cases shape cs) as [[_ ->]|[_ ->]]; [|exact H].
  simpl. apply indexed_from_app. split; [exact H|].
  destruct (content_bearing shape); [|exact I]. simpl. split; [|exact I].
  apply shape_chunk_order.
Qed.

Lemma pptx_loop_indexed presentation cs :
  indexed_from 0 cs ->
  indexed_from 0
    (snd (for_each presentation (fun slide => for_each slide PPTParser.parse_shape) cs)).
Proof.
  apply for_each_invariant. intros slide s0.
  apply for_each_invariant. intros shape s1. apply parse_shape_indexed.
Qed.

Lemma pptx_parse_file_init presentation :
  fst (PPTParser.parse_file (PPTParser.init presentation)) =
  match for_each presentation (fun slide => for_each slide PPTParser.parse_shape) [] with
  | (Return _, cs') => Return cs'
  | (Raise e, _) => Raise e
  end.
Proof.
  unfold PPTParser.parse_file, PPTParser.init, PPTParser.parse_slides.
  cbn [PPTParser.slides PPTParser.chunks].
  rewrite sequenced_loop by (apply pptx_loop_indexed; exact I).
  now destruct (for_each presentation _ []) as [[[]|e] cs'].
Qed.

(** * DocxParser *)

Lemma docx_append_loop {X} (f : X -> pyval) xs cs :
  for_each xs (fun x => DocxParser.append (f x)) cs = (Return tt, cs ++ map f xs).
Proof.
  revert cs. induction xs as [|x xs IH]; intros cs; simpl.
  - now rewrite app_nil_r.
  - unfold bind, DocxParser.append at 1. rewrite IH, <- app_assoc. reflexivity.
Qed.

Lemma docx_paragraph_loop paras cs :
  for_each paras DocxParser.parse_paragraph cs =
  (Return tt, cs ++ map docx_paragraph_chunk paras).
Proof.
  revert cs. induction paras as [|para paras IH]; intros cs.
  - simpl. now rewrite app_nil_r.
  - rewrite for_each_cons. unfold DocxParser.parse_paragraph at 1.
    cbn [map].
    change (docx_paragraph_chunk para)
      with (if startswith (style_name para) "List"
            then PDict [("type", PStr "list"); ("data", PStr (text para))]
            else PStr (text para)).
    destruct (startswith (style_name para) "List");
      unfold DocxParser.append; rewrite IH, <- app_assoc; reflexivity.
Qed.

(** The pass over the inline images raises at the first image. *)
Lemma docx_image_loop imgs cs :
  for_each imgs DocxParser.parse_image cs =
  (match imgs with [] => Return tt | _ :: _ => Raise (AttributeError "docx") end, cs).
Proof. now destruct imgs. Qed.

Lemma docx_parse_doc_from d cs0 :
  DocxParser.parse_doc d cs0 =
  (match inline_shapes d with
   | [] => Return (cs0 ++ map docx_paragraph_chunk (paragraphs d)
                       ++ map docx_table_chunk (tables d))
   | _ :: _ => Raise (AttributeError "docx")
   end,
   cs0 ++ map docx_paragraph_chunk (paragraphs d) ++ map docx_table_chunk (tables d)).
Proof.
  unfold DocxParser.parse_doc.
  unfold bind at 1. rewrite docx_paragraph_loop.
  unfold bind at 1, DocxParser.parse_table. rewrite docx_append_loop.
  unfold bind at 1. rewrite docx_image_loop, <- app_assoc.
  now destruct (inline_shapes d).
Qed.

Lemma docx_parse_file_init d :
  DocxParser.parse_file (DocxParser.init d) =
  (match inline_shapes d with
   | [] => Return (map docx_paragraph_chunk (paragraphs d)
                   ++ map docx_table_chunk (tables d))
   | _ :: _ => Raise (AttributeError "docx")
   end,
   {| DocxParser.doc := d;
      DocxParser.chunks := map docx_paragraph_chunk (paragraphs d)
                           ++ map docx_table_chunk (tables d) |}).
Proof.
  unfold DocxParser.parse_file, DocxParser.init.
  cbn [DocxParser.doc DocxParser.chunks]. now rewrite docx_parse_doc_from.
Qed.

(** * Order of the extraction results *)

Lemma docx_chunks_without_order d :
  Forall (fun c => ~ carries_order c)
    (map docx_paragraph_chunk (paragraphs d) ++ map docx_table_chunk (tables d)).
Proof.
  rewrite Forall_app. split; apply Forall_map, Forall_forall;
    intros x _ [v Hv]; try discriminate Hv.
  unfold docx_paragraph_chunk in Hv.
  destruct (startswith (style_name x) "List"); discriminate Hv.
Qed.

(** C1 (amended).  Every chunk the PDF extractor and the PPTX extractor
    emit carries an [order] equal to its position in [self.chunks], also
    when the extraction raises part-way.  In every result they return the
    list is the list in emission order (the final sort leaves it as it is),
    the [order] of a chunk is its position there, so the values are unique
    and [chunk[i].order < chunk[i+1].order] for every adjacent pair.  The
    DOCX extractor has no sequencing step and none of the chunks it emits
    carries an [order]; what it returns is the chunks of its paragraph pass
    followed by the chunks of its table pass. *)
Theorem order_monotone_pdf_pptx
    (read_pdf : string -> outcome (list DataFrame)) (pages : list Page)
    (presentation : list (list Shape)) (d : Docx) :
  (in_emission_order
     (PDFParser.chunks (snd (PDFParser.parse_file read_pdf (PDFParser.init pages)))) /\
   Forall carries_order
     (PDFParser.chunks (snd (PDFParser.parse_file read_pdf (PDFParser.init pages)))) /\
   forall cs,
      fst (PDFParser.parse_file read_pdf (PDFParser.init pages)) = Return cs ->
      cs = snd (for_each pages (PDFParser.parse_page read_pdf) []) /\
      in_emission_order cs /\ order_unique cs /\
      Forall carries_order cs /\ order_monotone cs) /\
  (in_emission_order
     (PPTParser.chunks (snd (PPTParser.parse_file (PPTParser.init presentation)))) /\
   Forall carries_order
     (PPTParser.chunks (snd (PPTParser.parse_file (PPTParser.init presentation)))) /\
   forall cs,
      fst (PPTParser.parse_file (PPTParser.init presentation)) = Return cs ->
      cs = snd (for_each presentation
                  (fun slide => for_each slide PPTParser.parse_shape) []) /\
      in_emission_order cs /\ order_unique cs /\
      Forall carries_order cs /\ order_monotone cs) /\
  (Forall (fun c => ~ carries_order c)
     (DocxParser.chunks (snd (DocxParser.parse_file (DocxParser.init d)))) /\
   forall cs,
      fst (DocxParser.parse_file (DocxParser.init d)) = Return cs ->
      cs = map docx_paragraph_chunk (paragraphs d) ++ map docx_table_chunk (tables d) /\
      Forall (fun c => ~ carries_order c) cs).
Proof.
  split; [|split].
  - pose proof (pdf_loop_indexed read_pdf pages [] I) as Hidx.
    unfold PDFParser.parse_file, PDFParser.init, PDFParser.parse_pages.
    cbn [PDFParser.reader_pages PDFParser.chunks].
    rewrite sequenced_loop by exact Hidx.
    destruct (for_each pages (PDFParser.parse_page read_pdf) []) as [[[]|e] cs'];
      cbn [fst snd PDFParser.chunks] in *;
      (split; [now apply indexed_result|]); (split; [now apply indexed_result|]);
      intros cs H; [|discriminate].
    injection H as <-. split; [reflexivity | now apply indexed_result].
  - pose proof (pptx_loop_indexed presentation [] I) as Hidx.
    unfold PPTParser.parse_file, PPTParser.init, PPTParser.parse_slides.
    cbn [PPTParser.slides PPTParser.chunks].
    rewrite sequenced_loop by exact Hidx.
    destruct (for_each presentation _ []) as [[[]|e] cs'];
      cbn [fst snd PPTParser.chunks] in *;
      (split; [now apply indexed_result|]); (split; [now apply indexed_result|]);
      intros cs H; [|discriminate].
    injection H as <-. split; [reflexivity | now apply indexed_result].
  - rewrite docx_parse_file_init. cbn [fst snd DocxParser.chunks].
    split; [apply docx_chunks_without_order|].
    intros cs H. destruct (inline_shapes d); [|discriminate].
    injection H as <-. split; [reflexivity | apply docx_chunks_without_order].
Qed.

Lemma order_monotone_pdf_pptx_witness :
  (exists cs,
      fst (PDFParser.parse_file sample_read_pdf (PDFParser.init [])) = Return cs /\
      order_monotone cs) /\
  in_emission_order
    (PDFParser.chunks (snd (PDFParser.parse_file sample_read_pdf
                              (PDFParser.init sample_pdf)))) /\
  (exists cs,
      fst (PPTParser.parse_file (PPTParser.init sample_pptx)) = Return cs /\
      order_monotone cs) /\
  (exists cs,
      fst (DocxParser.parse_file (DocxParser.init sample_docx)) = Return cs /\
      Forall (fun c => ~ carries_order c) cs).
Proof.
  pose proof (order_monotone_pdf_pptx sample_read_pdf [] sample_pptx sample_docx)
    as ((_ & _ & Hpdf) & (_ & _ & Hppt) & (_ & Hdocx)).
  pose proof (order_monotone_pdf_pptx sample_read_pdf sample_pdf sample_pptx sample_docx)
    as ((Hstate & _) & _).
  split; [|split; [|split]].
  - eexists. split; [reflexivity|]. apply Hpdf. reflexivity.
  - exact Hstate.
  - eexists. split; [reflexivity|]. apply Hppt. reflexivity.
  - eexists. split; [reflexivity|]. apply Hdocx. reflexivity.
Defined.

(** C1, as stated, fails on the DOCX extractor: the chunk of a plain
    paragraph is the bare text, which carries no [order]. *)
Lemma docx_chunk_without_order_sample :
  exists cs c,
    fst (DocxParser.parse_file (DocxParser.init sample_docx)) = Return cs /\
    In c cs /\ ~ carries_order c.
Proof.
  eexists. exists (PStr "hello"). split; [reflexivity|]. split; [now left|].
  intros [v Hv]. discriminate Hv.
Qed.

(** * Table detection that raises *)

(** C2 (amended).  When table detection raises on a page that the traversal
    reaches (the passes over the pages before it returned), [parse_file]
    raises that exception: no chunk list is returned.  [self.chunks] is left
    holding the chunks of the earlier pages and the paragraphs of the
    failing page; every later page is never visited. *)
Theorem pdf_table_failure_aborts
    (read_pdf : string -> outcome (list DataFrame))
    (pre : list Page) (page : Page) (post : list Page) (e : exn) (before : list pyval) :
  for_each pre (PDFParser.parse_page read_pdf) [] = (Return tt, before) ->
  read_pdf (extract_text page) = Raise e ->
  PDFParser.parse_file read_pdf (PDFParser.init (pre ++ page :: post)) =
  (Raise e,
   {| PDFParser.reader_pages := pre ++ page :: post;
      PDFParser.chunks :=
        before ++ emit PDFParser.paragraph_chunk
                       (str_split (extract_text page) (String.append nl nl))
                       (List.length before) |}).
Proof.
  intros Hbefore Hfail.
  unfold PDFParser.parse_file, PDFParser.init, PDFParser.parse_pages.
  cbn [PDFParser.reader_pages PDFParser.chunks].
  unfold bind at 1. rewrite for_each_app, Hbefore, for_each_cons, parse_page_raises.
  unfold page_exception, page_emitted, detected. rewrite Hfail.
  cbn [emit]. now rewrite app_nil_r.
Qed.

Lemma pdf_table_failure_aborts_witness :
  PDFParser.parse_file sample_read_pdf (PDFParser.init ([] ++ sample_pdf_failing)) =
  (Raise (DecoderError "cannot parse"),
   {| PDFParser.reader_pages := [] ++ sample_pdf_failing;
      PDFParser.chunks :=
        [] ++ emit PDFParser.paragraph_chunk
                   (str_split "bad" (String.append nl nl)) (List.length (@nil pyval)) |}).
Proof.
  apply (pdf_table_failure_aborts sample_read_pdf [] (sample_page "bad")
           [sample_page "second"; sample_page "third"]
           (DecoderError "cannot parse") []).
  - reflexivity.
  - reflexivity.
Defined.

(** C2, as stated, fails: with three pages and a detection failure on the
    first, nothing is returned, and [self.chunks] holds no chunk of the
    other pages. *)
Lemma pdf_table_failure_sample :
  PDFParser.parse_file sample_read_pdf (PDFParser.init sample_pdf_failing) =
    (Raise (DecoderError "cannot parse"),
     {| PDFParser.reader_pages := sample_pdf_failing;
        PDFParser.chunks := [PDFParser.paragraph_chunk "bad" 0] |}) /\
  ~ exists cs,
      fst (PDFParser.parse_file sample_read_pdf (PDFParser.init sample_pdf_failing)) =
      Return cs.
Proof.
  split; [reflexivity|]. intros [cs H]. discriminate H.
Qed.

(** * DOCX paragraphs *)

(** C3 (amended).  The chunk of the [i]-th paragraph of a DOCX document is
    the [i]-th chunk of [self.chunks], and of the returned list whenever the
    call returns, as it does for a document without inline images.  When
    the style name starts with [List] the chunk is a dict tagged [list]
    holding the text under [data]; otherwise it is the bare text of the
    paragraph, a string with no tag at all. *)
Theorem docx_paragraph_classification (d : Docx) (i : nat) (para : Paragraph) :
  nth_error (paragraphs d) i = Some para ->
  exists c,
    nth_error (DocxParser.chunks (snd (DocxParser.parse_file (DocxParser.init d)))) i =
      Some c /\
    (forall cs,
        fst (DocxParser.parse_file (DocxParser.init d)) = Return cs ->
        nth_error cs i = Some c) /\
    (inline_shapes d = [] ->
     exists cs, fst (DocxParser.parse_file (DocxParser.init d)) = Return cs) /\
    (startswith (style_name para) "List" = true ->
     c = PDict [("type", PStr "list"); ("data", PStr (text para))]) /\
    (startswith (style_name para) "List" = false ->
     c = PStr (text para) /\ forall k, getitem c k = Raise TypeError).
Proof.
  intros Hi. rewrite docx_parse_file_init. cbn [fst snd DocxParser.chunks].
  assert (Hnth : nth_error (map docx_paragraph_chunk (paragraphs d)
                            ++ map docx_table_chunk (tables d)) i =
                 Some (docx_paragraph_chunk para)).
  { rewrite nth_error_app1.
    - now rewrite nth_error_map, Hi.
    - rewrite length_map. apply nth_error_Some. now rewrite Hi. }
  exists (docx_paragraph_chunk para). split; [exact Hnth|]. split; [|split; [|split]].
  - intros cs H. destruct (inline_shapes d); [|discriminate].
    injection H as <-. exact Hnth.
  - intros ->. now eexists.
  - unfold docx_paragraph_chunk. now intros ->.
  - unfold docx_paragraph_chunk. intros ->. split; reflexivity.
Qed.

Lemma docx_paragraph_classification_witness :
  exists c,
    nth_error (DocxParser.chunks
                 (snd (DocxParser.parse_file (DocxParser.init sample_docx)))) 1 = Some c /\
    (forall cs,
        fst (DocxParser.parse_file (DocxParser.init sample_docx)) = Return cs ->
        nth_error cs 1 = Some c) /\
    (inline_shapes sample_docx = [] ->
     exists cs, fst (DocxParser.parse_file (DocxParser.init sample_docx)) = Return cs) /\
    (startswith "List Bullet" "List" = true ->
     c = PDict [("type", PStr "list"); ("data", PStr "item")]) /\
    (startswith "List Bullet" "List" = false ->
     c = PStr "item" /\ forall k, getitem c k = Raise TypeError).
Proof.
  apply (docx_paragraph_classification sample_docx 1
           {| style_name := "List Bullet"; text := "item" |}).
  reflexivity.
Defined.

(** C3, as stated, fails: the chunk of a [Normal] paragraph has no
    [paragraph] tag, and the tag of a list paragraph is [list]. *)
Lemma docx_plain_paragraph_untagged_sample :
  exists plain item rest,
    fst (DocxParser.parse_file (DocxParser.init sample_docx)) =
      Return (plain :: item :: rest) /\
    getitem plain "type" <> Return (PStr "paragraph") /\
    is_kind "paragraph" plain = false /\
    getitem item "type" <> Return (PStr "list_item").
Proof.
  do 3 eexists. split; [reflexivity|]. repeat split; discriminate.
Qed.

(** * PDF pages without text *)

Lemma emit_other_kind {X} (mk : X -> Z -> pyval) kind xs n :
  (forall x k, is_kind kind (mk x k) = false) ->
  filter (is_kind kind) (emit mk xs n) = [].
Proof.
  intros Hmk. revert n. induction xs as [|x xs IH]; intros n; [reflexivity|].
  cbn [emit filter]. now rewrite Hmk, IH.
Qed.

(** C4 (amended).  A page whose extracted text is empty contributes exactly
    one paragraph chunk, with empty text ([''.split] returns one empty
    string), whatever table detection does on the page: the pass over it
    appends that chunk first and no other paragraph chunk. *)
Theorem pdf_empty_page_one_paragraph
    (read_pdf : string -> outcome (list DataFrame)) (page : Page) (cs : list pyval) :
  extract_text page = "" ->
  exists rest,
    snd (PDFParser.parse_page read_pdf page cs) =
      cs ++ PDFParser.paragraph_chunk "" (Z.of_nat (List.length cs)) :: rest /\
    filter (is_kind "paragraph") rest = [].
Proof.
  intros Htext.
  exists (emit PDFParser.table_chunk (detected read_pdf page) (List.length cs + 1)).
  split.
  - rewrite parse_page_raises. unfold page_emitted. rewrite Htext. reflexivity.
  - now apply emit_other_kind.
Qed.

Lemma pdf_empty_page_one_paragraph_witness :
  exists rest,
    snd (PDFParser.parse_page sample_read_pdf (sample_page "") []) =
      [] ++ PDFParser.paragraph_chunk "" (Z.of_nat (List.length (@nil pyval))) :: rest /\
    filter (is_kind "paragraph") rest = [].
Proof.
  apply (pdf_empty_page_one_paragraph sample_read_pdf (sample_page "") []).
  reflexivity.
Defined.

(** C4, as stated, fails: the first page of this document has no text, and
    the pass over it leaves one paragraph chunk in [self.chunks]; nothing
    of the second page follows. *)
Lemma pdf_empty_page_sample :
  exists e cs,
    PDFParser.parse_file sample_read_pdf
      (PDFParser.init [sample_page ""; sample_page "next"]) =
      (Raise e,
       {| PDFParser.reader_pages := [sample_page ""; sample_page "next"];
          PDFParser.chunks := cs |}) /\
    cs = [PDFParser.paragraph_chunk "" 0] /\
    List.length (filter (is_kind "paragraph") cs) <> 0%nat.
Proof.
  do 2 eexists. split; [reflexivity|]. split; [reflexivity | discriminate].
Qed.

(** * PPTX shapes *)

(** C7.  A shape that has a text frame yields exactly one chunk, a paragraph
    chunk, whatever its shape type: also when the type is the table code 19
    or the picture code 13, since the text-frame test comes first. *)
Theorem pptx_text_frame_first (shape : Shape) (cs : list pyval) :
  has_text_frame shape = true ->
  exists c,
    PPTParser.parse_shape shape cs = (Return tt, cs ++ [c]) /\
    c = PPTParser.paragraph_chunk (PPTParser.frame_text (text_frame shape))
                                  (Z.of_nat (List.length cs)) /\
    is_kind "paragraph" c = true /\
    is_kind "table" c = false /\
    is_kind "image" c = false.
Proof.
  intros H. eexists. split; [now apply parse_shape_text|].
  repeat split.
Qed.

Lemma pptx_text_frame_first_witness :
  shape_type sample_text_table_shape = 19 /\
  exists c,
    PPTParser.parse_shape sample_text_table_shape [] = (Return tt, [] ++ [c]) /\
    c = PPTParser.paragraph_chunk
          (PPTParser.frame_text (text_frame sample_text_table_shape)) 0 /\
    is_kind "paragraph" c = true /\
    is_kind "table" c = false /\
    is_kind "image" c = false.
Proof.
  split; [reflexivity|].
  apply (pptx_text_frame_first sample_text_table_shape []). reflexivity.
Defined.

(** C8.  The table branch of the shape loop raises on every table that has
    a first row: [table.rows[1:]] subscripts a [_RowCollection] with a
    slice, which raises [TypeError], so the table chunk of line 99 is never
    appended.  For a table of two columns and three rows the whole
    extraction raises and [self.chunks] stays empty. *)
Theorem pptx_table_rows_slice_raises :
  PPTParser.parse_shape sample_table_shape [] = (Raise TypeError, []) /\
  PPTParser.parse_file (PPTParser.init [[sample_table_shape]]) =
  (Raise TypeError,
   {| PPTParser.slides := [[sample_table_shape]]; PPTParser.chunks := [] |}).
Proof. split; reflexivity. Qed.

(** C9 (amended).  The text of the paragraph chunk of a shape with a text
    frame is every paragraph of the frame followed by a newline: for a frame
    that is not empty, the paragraphs joined by newlines and one more
    newline at the end; for a frame of one paragraph, that paragraph and a
    newline. *)
Theorem pptx_paragraph_text_terminated (shape : Shape) (cs : list pyval) :
  has_text_frame shape = true ->
  exists text,
    PPTParser.parse_shape shape cs =
      (Return tt, cs ++ [PPTParser.paragraph_chunk text (Z.of_nat (List.length cs))]) /\
    text = String.concat "" (map (fun p => String.append p nl) (text_frame shape)) /\
    (text_frame shape <> [] ->
     text = String.append (String.concat nl (text_frame shape)) nl) /\
    (forall p, text_frame shape = [p] -> text = String.append p nl).
Proof.
  intros H. exists (PPTParser.frame_text (text_frame shape)).
  split; [now apply parse_shape_text|].
  rewrite frame_text_terminated. split; [reflexivity|]. split.
  - apply terminated_join.
  - intros p ->. reflexivity.
Qed.

Lemma pptx_paragraph_text_terminated_witness :
  exists text,
    PPTParser.parse_shape sample_text_table_shape [] =
      (Return tt, [] ++ [PPTParser.paragraph_chunk text 0]) /\
    text = String.concat "" (map (fun p => String.append p nl)
                                 (text_frame sample_text_table_shape)) /\
    (text_frame sample_text_table_shape <> [] ->
     text = String.append (String.concat nl (text_frame sample_text_table_shape)) nl) /\
    (forall p, text_frame sample_text_table_shape = [p] -> text = String.append p nl).
Proof.
  apply (pptx_paragraph_text_terminated sample_text_table_shape []). reflexivity.
Defined.

(** C9, as stated, fails: for the frame holding the single paragraph
    [title] the chunk text is [title] and a newline, not the paragraphs
    separated by newlines. *)
Lemma pptx_paragraph_text_sample :
  exists text,
    PPTParser.parse_shape sample_text_table_shape [] =
      (Return tt, [PPTParser.paragraph_chunk text 0]) /\
    text = String.append "title" nl /\
    text <> String.concat nl (text_frame sample_text_table_shape) /\
    text <> "title".
Proof.
  exists (String.append "title" nl).
  split; [reflexivity|]. split; [reflexivity|]. split; discriminate.
Qed.

(** * CSVParser and TSVParser *)

Lemma dict_get_set k k' v d :
  dict_get k (dict_set k' v d) = if String.eqb k' k then Some v else dict_get k d.
Proof.
  induction d as [|[k0 v0] d IH]; [reflexivity|].
  cbn [dict_set]. destruct (String.eqb_spec k0 k') as [->|Hne]; cbn [dict_get].
  - now destruct (String.eqb k' k).
  - rewrite IH. destruct (String.eqb_spec k0 k) as [->|Hk]; [|reflexivity].
    destruct (String.eqb_spec k' k); [congruence | reflexivity].
Qed.

Lemma index_of_in label labels :
  In label labels -> exists j, index_of label labels = Some j.
Proof.
  induction labels as [|l labels IH]; [contradiction|]. intros Hin. cbn [index_of].
  destruct (String.eqb_spec l label) as [_|Hne]; [now eexists|].
  destruct Hin as [->|Hin]; [congruence|].
  destruct (IH Hin) as [j ->]. now eexists.
Qed.

(** [df[i]] never raises for a label taken from [df.columns]. *)
Lemma column_tolist_in df label :
  In label (columns df) -> exists cells, column_tolist df label = Return cells.
Proof.
  intros Hin. unfold column_tolist.
  destruct (index_of_in _ _ Hin) as [j ->]. now eexists.
Qed.

Section Tabular.
Variable df : DataFrame.

Lemma csv_loop cols d :
  incl cols (columns df) ->
  exists d',
    for_each cols (fun i =>
      col <- lift (column_tolist df i) ;;
      setitem i (PList col)) d = (Return tt, d') /\
    forall k, dict_get k d' =
              if is_label k cols then column_entry df k else dict_get k d.
Proof.
  revert d. induction cols as [|c cols IH]; intros d Hincl.
  - exists d. split; reflexivity.
  - destruct (column_tolist_in df c (Hincl c (or_introl eq_refl))) as [cells Hc].
    destruct (IH (dict_set c (PList cells) d)) as (d' & Hrun & Hget).
    { intros x Hx. apply Hincl. now right. }
    exists d'. split.
    + rewrite for_each_cons. unfold bind at 1, lift at 1. rewrite Hc.
      unfold setitem at 1. exact Hrun.
    + intros k. rewrite Hget, dict_get_set. unfold is_label. cbn [existsb].
      destruct (existsb (fun l => String.eqb l k) cols) eqn:Hmem.
      * now rewrite orb_true_r.
      * rewrite orb_false_r. destruct (String.eqb_spec c k) as [<-|]; [|reflexivity].
        unfold column_entry. now rewrite Hc.
Qed.

Lemma tsv_loop cols d :
  incl cols (columns df) ->
  exists d',
    for_each cols (fun i =>
      col <- lift (column_tolist df i) ;;
      setitem i (PList col) ;;
      setitem "dataframe" (frame_val df) ;;
      setitem "headers" (PIndex (columns df))) d = (Return tt, d') /\
    forall k, dict_get k d' =
              match cols with
              | [] => dict_get k d
              | _ :: _ =>
                  if String.eqb "headers" k then Some (PIndex (columns df))
                  else if String.eqb "dataframe" k then Some (frame_val df)
                  else if is_label k cols then column_entry df k
                  else dict_get k d
              end.
Proof.
  revert d. induction cols as [|c cols IH]; intros d Hincl.
  - exists d. split; reflexivity.
  - destruct (column_tolist_in df c (Hincl c (or_introl eq_refl))) as [cells Hc].
    destruct (IH (dict_set "headers" (PIndex (columns df))
                    (dict_set "dataframe" (frame_val df)
                       (dict_set c (PList cells) d)))) as (d' & Hrun & Hget).
    { intros x Hx. apply Hincl. now right. }
    exists d'. split.
    + rewrite for_each_cons. unfold bind at 1, bind at 1, lift at 1. rewrite Hc.
      unfold setitem at 1, bind at 1, setitem at 1, setitem at 1. exact Hrun.
    + intros k. rewrite Hget. unfold is_label. cbn [existsb].
      destruct cols as [|c' cols'].
      * rewrite !dict_get_set. cbn [existsb]. rewrite orb_false_r.
        destruct (String.eqb "headers" k); [reflexivity|].
        destruct (String.eqb "dataframe" k); [reflexivity|].
        destruct (String.eqb_spec c k) as [<-|]; [|reflexivity].
        unfold column_entry. now rewrite Hc.
      * rewrite !dict_get_set.
        destruct (String.eqb "headers" k); [reflexivity|].
        destruct (String.eqb "dataframe" k); [reflexivity|].
        destruct (existsb (fun l => String.eqb l k) (c' :: cols')) eqn:Hmem.
        -- now rewrite orb_true_r.
        -- rewrite orb_false_r.
           destruct (String.eqb_spec c k) as [<-|]; [|reflexivity].
           unfold column_entry. now rewrite Hc.
Qed.

End Tabular.

(** What both parsers leave under every key. *)
Lemma csv_parse_frame df :
  exists d,
    CSVParser.parse_frame df [] = (Return d, d) /\
    forall k, dict_get k d =
              if String.eqb "headers" k then Some (PIndex (columns df))
              else if String.eqb "dataframe" k then Some (frame_val df)
              else if is_label k (columns df) then column_entry df k
              else None.
Proof.
  destruct (csv_loop df (columns df) [] (incl_refl _)) as (d' & Hrun & Hget).
  exists (dict_set "headers" (PIndex (columns df))
            (dict_set "dataframe" (frame_val df) d')).
  split.
  - unfold CSVParser.parse_frame, bind at 1. rewrite Hrun. reflexivity.
  - intros k. rewrite !dict_get_set, Hget. reflexivity.
Qed.

Lemma tsv_parse_frame df :
  columns df <> [] ->
  exists d,
    TSVParser.parse_frame df [] = (Return d, d) /\
    forall k, dict_get k d =
              if String.eqb "headers" k then Some (PIndex (columns df))
              else if String.eqb "dataframe" k then Some (frame_val df)
              else if is_label k (columns df) then column_entry df k
              else None.
Proof.
  intros Hcols.
  destruct (tsv_loop df (columns df) [] (incl_refl _)) as (d' & Hrun & Hget).
  exists d'. split.
  - unfold TSVParser.parse_frame, bind at 1. rewrite Hrun. reflexivity.
  - intros k. rewrite Hget. destruct (columns df); [congruence | reflexivity].
Qed.

(** Without a column the loop body never runs, and the TSV result has no
    key at all; [pd.read_csv] raises on a file without columns, so no such
    frame reaches the parsers. *)
Lemma tsv_parse_frame_no_column df :
  columns df = [] -> TSVParser.parse_frame df [] = (Return [], []).
Proof. intros H. unfold TSVParser.parse_frame. now rewrite H. Qed.

Lemma is_label_in k labels : In k labels -> is_label k labels = true.
Proof.
  intros H. unfold is_label. apply existsb_exists. exists k.
  split; [exact H | apply String.eqb_refl].
Qed.

Section Pandas.
Variable read_csv : string -> string -> outcome DataFrame.

(** X27.  When [pd.read_csv] returns the same grid for a comma-delimited
    file and for a tab-delimited file, and the grid has at least one column,
    [CSVParser] and [TSVParser] both return, their results hold the same
    value under every key, [headers] is the header list in both, and every
    column not named [headers] or [dataframe] maps to the same sequence of
    its values in both. *)
Theorem csv_tsv_equivalence (csv_path tsv_path : string) (df : DataFrame) :
  read_csv csv_path "," = Return df ->
  read_csv tsv_path tab = Return df ->
  columns df <> [] ->
  exists c t,
    CSVParser.extract read_csv csv_path = Return c /\
    TSVParser.extract read_csv tsv_path = Return t /\
    dict_get "headers" c = Some (PIndex (columns df)) /\
    dict_get "headers" t = Some (PIndex (columns df)) /\
    (forall k, dict_get k c = dict_get k t) /\
    (forall col, In col (columns df) -> col <> "headers" -> col <> "dataframe" ->
       exists cells,
         column_tolist df col = Return cells /\
         dict_get col c = Some (PList cells) /\
         dict_get col t = Some (PList cells)).
Proof.
  intros Hcsv Htsv Hcols.
  destruct (csv_parse_frame df) as (c & Hc & Hgc).
  destruct (tsv_parse_frame df Hcols) as (t & Ht & Hgt).
  exists c, t.
  split; [unfold CSVParser.extract, CSVParser.init, CSVParser.parse_file;
          rewrite Hcsv; simpl; now rewrite Hc|].
  split; [unfold TSVParser.extract, TSVParser.init, TSVParser.parse_file;
          rewrite Htsv; simpl; now rewrite Ht|].
  split; [now rewrite Hgc|]. split; [now rewrite Hgt|]. split.
  - intros k. now rewrite Hgc, Hgt.
  - intros col Hin Hh Hd. destruct (column_tolist_in df col Hin) as [cells Hcells].
    exists cells. split; [exact Hcells|].
    rewrite Hgc, Hgt, (is_label_in _ _ Hin).
    destruct (String.eqb_spec "headers" col); [congruence|].
    destruct (String.eqb_spec "dataframe" col); [congruence|].
    unfold column_entry. rewrite Hcells. now split.
Qed.

(** C10.  When the header row of a CSV file has a column named [headers] or
    [dataframe], the result does not hold that column's values under its
    name: the reserved keys are written after the columns, so [headers] maps
    to the header list and [dataframe] to the whole grid. *)
Theorem csv_reserved_column_overwritten (csv_path : string) (df : DataFrame) (col : string) :
  read_csv csv_path "," = Return df ->
  In col (columns df) ->
  col = "headers" \/ col = "dataframe" ->
  exists c cells,
    CSVParser.extract read_csv csv_path = Return c /\
    column_tolist df col = Return cells /\
    dict_get col c <> Some (PList cells) /\
    dict_get "headers" c = Some (PIndex (columns df)) /\
    dict_get "dataframe" c = Some (frame_val df).
Proof.
  intros Hcsv Hin Hres.
  destruct (csv_parse_frame df) as (c & Hc & Hgc).
  destruct (column_tolist_in df col Hin) as [cells Hcells].
  exists c, cells.
  split; [unfold CSVParser.extract, CSVParser.init, CSVParser.parse_file;
          rewrite Hcsv; simpl; now rewrite Hc|].
  split; [exact Hcells|].
  split; [|split; now rewrite Hgc].
  rewrite Hgc. destruct Hres as [-> | ->]; discriminate.
Qed.

End Pandas.

Lemma csv_tsv_equivalence_witness :
  exists c t,
    CSVParser.extract sample_read_csv "people.csv" = Return c /\
    TSVParser.extract sample_read_csv "people.tsv" = Return t /\
    dict_get "headers" c = Some (PIndex (columns sample_frame)) /\
    dict_get "headers" t = Some (PIndex (columns sample_frame)) /\
    (forall k, dict_get k c = dict_get k t) /\
    (forall col, In col (columns sample_frame) -> col <> "headers" -> col <> "dataframe" ->
       exists cells,
         column_tolist sample_frame col = Return cells /\
         dict_get col c = Some (PList cells) /\
         dict_get col t = Some (PList cells)).
Proof.
  apply (csv_tsv_equivalence sample_read_csv "people.csv" "people.tsv" sample_frame).
  - reflexivity.
  - reflexivity.
  - discriminate.
Defined.

Lemma csv_reserved_column_overwritten_witness :
  exists c cells,
    CSVParser.extract sample_read_csv "people.csv" = Return c /\
    column_tolist sample_frame "headers" = Return cells /\
    dict_get "headers" c <> Some (PList cells) /\
    dict_get "headers" c = Some (PIndex (columns sample_frame)) /\
    dict_get "dataframe" c = Some (frame_val sample_frame).
Proof.
  apply (csv_reserved_column_overwritten sample_read_csv "people.csv" sample_frame "headers").
  - reflexivity.
  - simpl. right. left. reflexivity.
  - left. reflexivity.
Defined.

(** C5.  The two tabular extractors differ in more than the delimiter:
    [TSVParser.parse_file] assigns the reserved keys [dataframe] and
    [headers] inside the column loop, [CSVParser.parse_file] after it.  On a
    grid of the columns [name] and [age] the TSV result therefore lists its
    keys as [name], [dataframe], [headers], [age], the CSV result as [name],
    [age], [dataframe], [headers]: the two results are not the same dict
    in insertion order, although they hold the same value under every
    key. *)
Theorem tsv_reserved_keys_inside_loop :
  exists c t,
    CSVParser.extract sample_read_plain "ages.csv" = Return c /\
    TSVParser.extract sample_read_plain "ages.tsv" = Return t /\
    dict_keys c = ["name"; "age"; "dataframe"; "headers"] /\
    dict_keys t = ["name"; "dataframe"; "headers"; "age"] /\
    c <> t /\
    (forall k, dict_get k c = dict_get k t).
Proof.
  exists [("name", PList [PStr "ann"; PStr "bob"]);
          ("age", PList [PInt 31; PInt 27]);
          ("dataframe", frame_val sample_plain_frame);
          ("headers", PIndex ["name"; "age"])],
         [("name", PList [PStr "ann"; PStr "bob"]);
          ("dataframe", frame_val sample_plain_frame);
          ("headers", PIndex ["name"; "age"]);
          ("age", PList [PInt 31; PInt 27])].
  split; [reflexivity|]. split; [reflexivity|].
  split; [reflexivity|]. split; [reflexivity|]. split; [discriminate|].
  intros k. cbn [dict_get].
  destruct (String.eqb_spec "name" k); [reflexivity|].
  destruct (String.eqb_spec "age" k) as [<-|]; reflexivity.
Qed.

(** The sample file run through both parsers: the column [headers] is gone,
    and the two results list their keys in different orders. *)
Example csv_sample_run :
  CSVParser.extract sample_read_csv "people.csv" =
  Return [("name", PList [PStr "ann"; PStr "bob"]);
          ("headers", PIndex ["name"; "headers"]);
          ("dataframe", frame_val sample_frame)].
Proof. reflexivity. Qed.

Example tsv_sample_run :
  TSVParser.extract sample_read_csv "people.tsv" =
  Return [("name", PList [PStr "ann"; PStr "bob"]);
          ("dataframe", frame_val sample_frame);
          ("headers", PIndex ["name"; "headers"])].
Proof. reflexivity. Qed.

(** * Splitting a text and joining the pieces *)

Lemma string_length_append (a b : string) :
  String.length (String.append a b) = (String.length a + String.length b)%nat.
Proof. induction a as [|ch a IH]; simpl; [reflexivity | now rewrite IH]. Qed.

Lemma prefix_app (p s : string) :
  prefix p s = true -> exists rest, s = String.append p rest.
Proof.
  revert s. induction p as [|a p IH]; intros s H.
  - now exists s.
  - destruct s as [|b s]; [discriminate|]. simpl in H.
    destruct (ascii_dec a b) as [->|]; [|discriminate].
    destruct (IH s H) as [rest ->]. now exists rest.
Qed.

Lemma split_from_nonempty sep skip cur s : split_from sep skip cur s <> [].
Proof.
  revert skip cur. induction s as [|c s IH]; intros skip cur; [discriminate|].
  cbn [split_from]. destruct skip; [|apply IH].
  destruct (prefix sep (String c s)); [discriminate | apply IH].
Qed.

Lemma split_from_skip sep t rest cur :
  split_from sep (String.length t) cur (String.append t rest) =
  split_from sep 0 cur rest.
Proof. induction t as [|c t IH]; [reflexivity | exact IH]. Qed.

Lemma concat_cons (sep x : string) (l : list string) :
  l <> [] ->
  String.concat sep (x :: l) = String.append x (String.append sep (String.concat sep l)).
Proof. destruct l; [congruence | reflexivity]. Qed.

(** [sep.join(s.split(sep)) == s] for a separator that is not empty. *)
Lemma split_join_from (a : ascii) (sep' : string) (n : nat) :
  forall s cur,
    (String.length s <= n)%nat ->
    String.concat (String a sep') (split_from (String a sep') 0 cur s) =
    String.append cur s.
Proof.
  induction n as [|n IH]; intros s cur Hlen.
  - destruct s; [|simpl in Hlen; lia]. simpl. now rewrite string_append_empty_r.
  - destruct s as [|c s]; [simpl; now rewrite string_append_empty_r|].
    cbn [split_from]. destruct (prefix (String a sep') (String c s)) eqn:Hp.
    + destruct (prefix_app _ _ Hp) as [rest Hrest]. simpl in Hrest.
      injection Hrest as -> ->.
      replace (String.length (String a sep') - 1)%nat with (String.length sep')
        by (simpl; lia).
      rewrite split_from_skip, concat_cons by apply split_from_nonempty.
      rewrite IH.
      * reflexivity.
      * simpl in Hlen. rewrite string_length_append in Hlen. lia.
    + rewrite IH by (simpl in Hlen; lia).
      now rewrite string_append_assoc.
Qed.

Lemma split_join (s sep : string) :
  sep <> "" -> String.concat sep (str_split s sep) = s.
Proof.
  destruct sep as [|a sep']; [congruence|]. intros _.
  unfold str_split. now rewrite (split_join_from a sep' (String.length s)).
Qed.

Lemma emit_texts (pieces : list string) (n : nat) :
  map chunk_text (emit PDFParser.paragraph_chunk pieces n) = pieces.
Proof.
  revert n. induction pieces as [|p pieces IH]; intros n; [reflexivity|].
  cbn [emit map]. now rewrite IH.
Qed.

Lemma emit_same_kind {X} (mk : X -> Z -> pyval) kind xs n :
  (forall x k, is_kind kind (mk x k) = true) ->
  filter (is_kind kind) (emit mk xs n) = emit mk xs n.
Proof.
  intros Hmk. revert n. induction xs as [|x xs IH]; intros n; [reflexivity|].
  cbn [emit filter]. now rewrite Hmk, IH.
Qed.

(** X1.  Whatever table detection does on a page, the pass over the page
    first appends its paragraph chunks, at least one, and their texts joined
    by blank lines are the text of the page: no character of the page text
    is lost or added by the split. *)
Theorem pdf_page_text_preserved
    (read_pdf : string -> outcome (list DataFrame)) (page : Page) (cs : list pyval) :
  exists ps rest,
    snd (PDFParser.parse_page read_pdf page cs) = cs ++ ps ++ rest /\
    ps <> [] /\
    filter (is_kind "paragraph") ps = ps /\
    filter (is_kind "paragraph") rest = [] /\
    String.concat (String.append nl nl) (map chunk_text ps) = extract_text page.
Proof.
  exists (emit PDFParser.paragraph_chunk
            (str_split (extract_text page) (String.append nl nl)) (List.length cs)).
  eexists. rewrite parse_page_raises. unfold page_emitted. cbv zeta.
  split; [reflexivity|]. split; [|split; [|split]].
  - pose proof (split_from_nonempty (String.append nl nl) 0 "" (extract_text page)) as Hne.
    unfold str_split.
    destruct (split_from _ 0 "" (extract_text page)); [congruence|discriminate].
  - now apply emit_same_kind.
  - now apply emit_other_kind.
  - rewrite emit_texts. now apply split_join.
Qed.

(** * More on the sequencing step *)

(** X2.  The sequencing step raises when the key function raises on a
    chunk: the exception is that of the first such chunk, [KeyError] for a
    dict without the key [order], [TypeError] for a chunk that is a string
    or a list, and no list is returned.  A chunk whose [order] is there
    passes the key function whatever the value is. *)
Theorem sequencer_missing_order (pre : list pyval) (c : pyval) (post : list pyval) (e : exn) :
  Forall (fun x => exists v, order_key x = Return v) pre ->
  order_key c = Raise e ->
  sorted (pre ++ c :: post) order_key = Raise e /\
  (forall d, c = PDict d -> dict_get "order" d = None /\ e = KeyError "order") /\
  (forall s, c = PStr s -> e = TypeError) /\
  (forall items, c = PList items -> e = TypeError) /\
  (forall d v, dict_get "order" d = Some v -> order_key (PDict d) = Return v).
Proof.
  intros Hpre Hc. split; [|split; [|split; [|split]]].
  - unfold sorted. now rewrite (decorate_raises order_key pre c post e Hpre Hc).
  - intros d ->. unfold order_key, getitem in Hc.
    destruct (dict_get "order" d); [discriminate|]. split; [reflexivity | congruence].
  - intros s ->. unfold order_key, getitem in Hc. congruence.
  - intros items ->. unfold order_key, getitem in Hc. congruence.
  - intros d v Hd. unfold order_key, getitem. now rewrite Hd.
Qed.

Lemma sequencer_missing_order_witness :
  sorted ([PDFParser.paragraph_chunk "a" 0; PDict [("order", PStr "x")]]
          ++ PDict [("type", PStr "list"); ("data", PStr "item")]
          :: [PDFParser.paragraph_chunk "b" 1]) order_key = Raise (KeyError "order") /\
  (forall d, PDict [("type", PStr "list"); ("data", PStr "item")] = PDict d ->
             dict_get "order" d = None /\ KeyError "order" = KeyError "order") /\
  (forall s, PDict [("type", PStr "list"); ("data", PStr "item")] = PStr s ->
             KeyError "order" = TypeError) /\
  (forall items, PDict [("type", PStr "list"); ("data", PStr "item")] = PList items ->
                 KeyError "order" = TypeError) /\
  (forall d v, dict_get "order" d = Some v -> order_key (PDict d) = Return v).
Proof.
  apply (sequencer_missing_order
           [PDFParser.paragraph_chunk "a" 0; PDict [("order", PStr "x")]]
           (PDict [("type", PStr "list"); ("data", PStr "item")])
           [PDFParser.paragraph_chunk "b" 1] (KeyError "order")).
  - repeat constructor; eexists; reflexivity.
  - reflexivity.
Defined.

(** X3.  Sequencing is idempotent: the list the step returns is returned
    unchanged when it is sequenced again. *)
Theorem sequencer_idempotent (chunks out : list pyval) :
  sorted chunks order_key = Return out ->
  sorted out order_key = Return out.
Proof. apply sorted_fixed. Qed.

Lemma sequencer_idempotent_witness :
  sorted [PDict [("order", PInt 1); ("tag", PStr "b")];
          PDict [("order", PInt 2); ("tag", PStr "a")];
          PDict [("order", PInt 2); ("tag", PStr "c")]] order_key =
  Return [PDict [("order", PInt 1); ("tag", PStr "b")];
          PDict [("order", PInt 2); ("tag", PStr "a")];
          PDict [("order", PInt 2); ("tag", PStr "c")]].
Proof.
  apply (sequencer_idempotent
           [PDict [("order", PInt 2); ("tag", PStr "a")];
            PDict [("order", PInt 1); ("tag", PStr "b")];
            PDict [("order", PInt 2); ("tag", PStr "c")]]).
  reflexivity.
Defined.

(** * The PDF result as a whole *)

(** X4.  [PDFParser.parse_file] returns only on a document without pages,
    and then the empty list.  On a document with a page the call ends in
    the pass over the first page: with the exception of table detection
    when detection raises, and otherwise with the [AttributeError] of
    [page.extract_images()].  [self.chunks] then holds the paragraphs of the
    first page and, when detection returned, its tables, numbered from 0;
    no other page is visited. *)
Theorem pdf_stops_at_first_page
    (read_pdf : string -> outcome (list DataFrame)) :
  PDFParser.parse_file read_pdf (PDFParser.init []) =
    (Return [], {| PDFParser.reader_pages := []; PDFParser.chunks := [] |}) /\
  forall page post,
    exists e ts,
      PDFParser.parse_file read_pdf (PDFParser.init (page :: post)) =
        (Raise e,
         {| PDFParser.reader_pages := page :: post;
            PDFParser.chunks :=
              emit PDFParser.paragraph_chunk
                   (str_split (extract_text page) (String.append nl nl)) 0 ++ ts |}) /\
      match read_pdf (extract_text page) with
      | Raise e' => e = e' /\ ts = []
      | Return tables =>
          e = AttributeError "extract_images" /\
          ts = emit PDFParser.table_chunk tables
                 (List.length (str_split (extract_text page) (String.append nl nl)))
      end.
Proof.
  split; [reflexivity|]. intros page post.
  unfold PDFParser.init. rewrite pdf_parse_file_cons.
  unfold page_exception, page_emitted, detected. cbv zeta. cbn [app List.length].
  rewrite emit_length, Nat.add_0_l.
  destruct (read_pdf (extract_text page)) as [tables|e'];
    do 2 eexists; (split; [reflexivity|]); split; reflexivity.
Qed.

(** X6.  [PDFParser.parse_file] does not reset [self.chunks]: a second call
    on a parser whose document has a page ends in the pass over the first
    page as the first call did, and appends the chunks of that page again,
    numbered on from the number of chunks the first call left, so
    [self.chunks] is still in emission order. *)
Theorem pdf_second_call_appends
    (read_pdf : string -> outcome (list DataFrame)) (page : Page) (post : list Page) :
  let first := page_emitted read_pdf page 0 in
  let again := page_emitted read_pdf page (List.length first) in
  PDFParser.parse_file read_pdf (PDFParser.init (page :: post)) =
    (Raise (page_exception read_pdf page),
     {| PDFParser.reader_pages := page :: post; PDFParser.chunks := first |}) /\
  PDFParser.parse_file read_pdf
    (snd (PDFParser.parse_file read_pdf (PDFParser.init (page :: post)))) =
    (Raise (page_exception read_pdf page),
     {| PDFParser.reader_pages := page :: post;
        PDFParser.chunks := first ++ again |}) /\
  first <> [] /\
  List.length again = List.length first /\
  in_emission_order (first ++ again).
Proof.
  intros first again. subst first again.
  unfold PDFParser.init. rewrite pdf_parse_file_cons. cbn [snd app List.length].
  rewrite pdf_parse_file_cons. cbn [PDFParser.chunks].
  split; [reflexivity|]. split; [reflexivity|]. split; [|split].
  - unfold page_emitted. cbv zeta.
    pose proof (split_from_nonempty (String.append nl nl) 0 "" (extract_text page)) as Hne.
    unfold str_split.
    destruct (split_from _ 0 "" (extract_text page)); [congruence|discriminate].
  - unfold page_emitted. cbv zeta. now rewrite !length_app, !emit_length.
  - apply indexed_result, indexed_from_app.
    split; apply page_emitted_indexed.
Qed.

(** * The PPTX result as a whole *)

Lemma for_each_concat {S X} (xss : list (list X)) (body : X -> M S unit) (s : S) :
  for_each xss (fun xs => for_each xs body) s = for_each (concat xss) body s.
Proof.
  revert s. induction xss as [|xs xss IH]; intros s; [reflexivity|].
  cbn [concat]. rewrite for_each_cons, for_each_app.
  destruct (for_each xs body s) as [[[]|e] s']; [apply IH | reflexivity].
Qed.

Lemma shapes_loop_passes shapes cs :
  Forall (fun shape => table_branch shape = false) shapes ->
  for_each shapes PPTParser.parse_shape cs =
  (Return tt, cs ++ shape_chunks shapes (List.length cs)).
Proof.
  intros Hall. revert cs. induction Hall as [|shape shapes Hshape _ IH]; intros cs.
  - cbn [for_each shape_chunks]. unfold ret. now rewrite app_nil_r.
  - rewrite for_each_cons.
    destruct (parse_shape_cases shape cs) as [[_ Hs]|[Hb _]]; [|congruence].
    rewrite Hs, IH. cbn [shape_chunks].
    destruct (content_bearing shape).
    + rewrite length_app, <- app_assoc. cbn [List.length app].
      now rewrite Nat.add_1_r.
    + now rewrite app_nil_r.
Qed.

Lemma shapes_loop_returns shapes cs cs' :
  for_each shapes PPTParser.parse_shape cs = (Return tt, cs') ->
  Forall (fun shape => table_branch shape = false) shapes.
Proof.
  revert cs. induction shapes as [|shape shapes IH]; intros cs H; [constructor|].
  rewrite for_each_cons in H.
  destruct (parse_shape_cases shape cs) as [[Hb Hs]|[_ Hs]]; rewrite Hs in H;
    [|discriminate].
  constructor; [exact Hb | exact (IH _ H)].
Qed.

Lemma shape_chunks_length shapes n :
  List.length (shape_chunks shapes n) = List.length (filter content_bearing shapes).
Proof.
  revert n. induction shapes as [|shape shapes IH]; intros n; [reflexivity|].
  cbn [shape_chunks filter]. destruct (content_bearing shape); cbn [List.length];
    now rewrite IH.
Qed.

Lemma shapes_loop_kinds shape cs :
  Forall (fun c => known_kind c = true) cs ->
  Forall (fun c => known_kind c = true) (snd (PPTParser.parse_shape shape cs)).
Proof.
  intros H. destruct (parse_shape_cases shape cs) as [[_ Hs]|[_ Hs]]; rewrite Hs;
    [|exact H].
  simpl. apply Forall_app. split; [exact H|].
  destruct (content_bearing shape); [|constructor].
  constructor; [|constructor].
  unfold shape_chunk. destruct (has_text_frame shape); reflexivity.
Qed.

Lemma pptx_parse_file_flat presentation :
  PPTParser.parse_file (PPTParser.init presentation) =
  match for_each (concat presentation) PPTParser.parse_shape [] with
  | (Return _, cs') =>
      (Return cs', {| PPTParser.slides := presentation; PPTParser.chunks := cs' |})
  | (Raise e, cs') =>
      (Raise e, {| PPTParser.slides := presentation; PPTParser.chunks := cs' |})
  end.
Proof.
  unfold PPTParser.parse_file, PPTParser.init, PPTParser.parse_slides.
  cbn [PPTParser.slides PPTParser.chunks].
  rewrite sequenced_loop by (apply pptx_loop_indexed; exact I).
  rewrite for_each_concat.
  now destruct (for_each (concat presentation) PPTParser.parse_shape []) as [[[]|e] cs'].
Qed.

(** X7.  [PPTParser.parse_file] returns exactly when no shape of the
    presentation reaches the table branch (no text frame and the type code
    19).  The result then holds one chunk for every shape that has a text
    frame or the type code 13, in slide and shape order and numbered from 0:
    a paragraph chunk with the text of the frame for a shape with a text
    frame, an image chunk for any other shape of type 13, and nothing for
    any other shape; [self.chunks] holds the returned list. *)
Theorem pptx_chunk_count (presentation : list (list Shape)) :
  (Forall (fun shape => table_branch shape = false) (concat presentation) ->
   PPTParser.parse_file (PPTParser.init presentation) =
     (Return (shape_chunks (concat presentation) 0),
      {| PPTParser.slides := presentation;
         PPTParser.chunks := shape_chunks (concat presentation) 0 |})) /\
  (forall cs,
      fst (PPTParser.parse_file (PPTParser.init presentation)) = Return cs ->
      Forall (fun shape => table_branch shape = false) (concat presentation) /\
      cs = shape_chunks (concat presentation) 0 /\
      List.length cs = List.length (filter content_bearing (concat presentation)) /\
      (List.length cs <= List.length (concat presentation))%nat).
Proof.
  split.
  - intros Hall. rewrite pptx_parse_file_flat, (shapes_loop_passes _ [] Hall).
    reflexivity.
  - intros cs. rewrite pptx_parse_file_flat.
    destruct (for_each (concat presentation) PPTParser.parse_shape []) as [[[]|e] cs']
      eqn:Hloop; [|discriminate].
    cbn [fst]. intros H. injection H as <-.
    pose proof (shapes_loop_returns _ _ _ Hloop) as Hall.
    rewrite (shapes_loop_passes _ [] Hall) in Hloop. injection Hloop as <-.
    cbn [app List.length]. split; [exact Hall|]. split; [reflexivity|].
    rewrite shape_chunks_length. split; [reflexivity | apply filter_length_le].
Qed.

Lemma pptx_chunk_count_witness :
  PPTParser.parse_file (PPTParser.init sample_pptx) =
    (Return [PPTParser.paragraph_chunk (String.append "title" nl) 0;
             PPTParser.image_chunk 5 1],
     {| PPTParser.slides := sample_pptx;
        PPTParser.chunks := [PPTParser.paragraph_chunk (String.append "title" nl) 0;
                             PPTParser.image_chunk 5 1] |}) /\
  (Forall (fun shape => table_branch shape = false) (concat sample_pptx) /\
   [PPTParser.paragraph_chunk (String.append "title" nl) 0; PPTParser.image_chunk 5 1] =
     shape_chunks (concat sample_pptx) 0 /\
   List.length [PPTParser.paragraph_chunk (String.append "title" nl) 0;
                PPTParser.image_chunk 5 1] =
     List.length (filter content_bearing (concat sample_pptx)) /\
   (List.length [PPTParser.paragraph_chunk (String.append "title" nl) 0;
                 PPTParser.image_chunk 5 1] <= List.length (concat sample_pptx))%nat).
Proof.
  pose proof (pptx_chunk_count sample_pptx) as [Hpass Hret].
  split.
  - apply Hpass. repeat constructor.
  - apply Hret. reflexivity.
Defined.

(** X8.  Slide boundaries leave no trace: a presentation and the single
    slide that holds all its shapes in the same order give the same result,
    value or exception, and the same [self.chunks]. *)
Theorem pptx_slides_flatten (presentation : list (list Shape)) :
  fst (PPTParser.parse_file (PPTParser.init presentation)) =
  fst (PPTParser.parse_file (PPTParser.init [concat presentation])) /\
  PPTParser.chunks (snd (PPTParser.parse_file (PPTParser.init presentation))) =
  PPTParser.chunks (snd (PPTParser.parse_file (PPTParser.init [concat presentation]))).
Proof.
  rewrite !pptx_parse_file_flat. cbn [concat]. rewrite app_nil_r.
  destruct (for_each (concat presentation) PPTParser.parse_shape []) as [[[]|e] cs'];
    split; reflexivity.
Qed.

(** X9.  A shape that reaches the table branch (no text frame, type code
    19) when every shape before it passed makes the whole PPTX extraction
    raise: [IndexError] from [table.rows[0]] when the table has no row,
    [TypeError] from [table.rows[1:]] when it has one.  Nothing is returned,
    no table chunk is appended, and [self.chunks] holds the chunks of the
    shapes before it. *)
Theorem pptx_table_shape_aborts
    (presentation : list (list Shape)) (pre : list Shape) (shape : Shape) (post : list Shape) :
  concat presentation = pre ++ shape :: post ->
  Forall (fun earlier => table_branch earlier = false) pre ->
  has_text_frame shape = false -> shape_type shape = 19 ->
  PPTParser.parse_file (PPTParser.init presentation) =
  (Raise (match table shape with [] => IndexError | _ :: _ => TypeError end),
   {| PPTParser.slides := presentation; PPTParser.chunks := shape_chunks pre 0 |}).
Proof.
  intros Hshapes Hpre Hf Ht.
  rewrite pptx_parse_file_flat, Hshapes, for_each_app, (shapes_loop_passes _ [] Hpre).
  rewrite for_each_cons. cbn [app List.length].
  destruct (parse_shape_cases shape (shape_chunks pre 0)) as [[Hb _]|[_ Hs]].
  - unfold table_branch in Hb. rewrite Hf, Ht in Hb. discriminate Hb.
  - now rewrite Hs.
Qed.

Lemma pptx_table_shape_aborts_witness :
  PPTParser.parse_file (PPTParser.init sample_pptx_with_table) =
  (Raise (match table sample_table_shape with [] => IndexError | _ :: _ => TypeError end),
   {| PPTParser.slides := sample_pptx_with_table;
      PPTParser.chunks := shape_chunks [sample_text_shape] 0 |}).
Proof.
  apply (pptx_table_shape_aborts sample_pptx_with_table [sample_text_shape]
           sample_table_shape [sample_picture_shape]).
  - reflexivity.
  - repeat constructor.
  - reflexivity.
  - reflexivity.
Defined.

(** * Kinds of chunks *)

Lemma emit_known {X} (mk : X -> Z -> pyval) xs n :
  (forall x k, known_kind (mk x k) = true) ->
  Forall (fun c => known_kind c = true) (emit mk xs n).
Proof.
  intros Hmk. revert n. induction xs as [|x xs IH]; intros n; constructor; auto.
Qed.

Lemma parse_page_kinds read_pdf page cs :
  Forall (fun c => known_kind c = true) cs ->
  Forall (fun c => known_kind c = true) (snd (PDFParser.parse_page read_pdf page cs)).
Proof.
  intros H. rewrite parse_page_raises. cbn [snd]. unfold page_emitted. cbv zeta.
  rewrite !Forall_app. repeat split; [exact H | |]; now apply emit_known.
Qed.

(** X10.  Every chunk the PDF and the PPTX extractor leave in [self.chunks],
    whether the call returns or raises, and so every chunk of a PDF result
    and of a PPTX result, is a dict tagged [paragraph], [table] or [image]:
    these two parsers emit no untagged chunk and no other tag. *)
Theorem pdf_pptx_chunks_tagged
    (read_pdf : string -> outcome (list DataFrame)) (pages : list Page)
    (presentation : list (list Shape)) :
  ((forall cs,
      fst (PDFParser.parse_file read_pdf (PDFParser.init pages)) = Return cs ->
      Forall (fun c => known_kind c = true) cs) /\
   (forall cs,
      fst (PPTParser.parse_file (PPTParser.init presentation)) = Return cs ->
      Forall (fun c => known_kind c = true) cs)) /\
  Forall (fun c => known_kind c = true)
    (PDFParser.chunks (snd (PDFParser.parse_file read_pdf (PDFParser.init pages)))) /\
  Forall (fun c => known_kind c = true)
    (PPTParser.chunks (snd (PPTParser.parse_file (PPTParser.init presentation)))).
Proof.
  pose proof (for_each_invariant (fun s => Forall (fun c => known_kind c = true) s)
                pages (PDFParser.parse_page read_pdf) []
                (fun page s0 => parse_page_kinds read_pdf page s0)
                (Forall_nil _)) as Hpdf.
  pose proof (for_each_invariant (fun s => Forall (fun c => known_kind c = true) s)
                (concat presentation) PPTParser.parse_shape []
                shapes_loop_kinds (Forall_nil _)) as Hppt.
  assert (Hstate :
    PDFParser.chunks (snd (PDFParser.parse_file read_pdf (PDFParser.init pages))) =
    snd (for_each pages (PDFParser.parse_page read_pdf) [])).
  { unfold PDFParser.parse_file, PDFParser.init, PDFParser.parse_pages.
    cbn [PDFParser.reader_pages PDFParser.chunks].
    rewrite sequenced_loop by (apply pdf_loop_indexed; exact I).
    now destruct (for_each pages (PDFParser.parse_page read_pdf) []) as [[[]|e] cs']. }
  split; [split|split]; [intros cs | intros cs | |].
  - rewrite pdf_parse_file_init.
    destruct (for_each pages (PDFParser.parse_page read_pdf) []) as [[[]|e] cs'];
      [|discriminate].
    intros H. injection H as <-. exact Hpdf.
  - rewrite pptx_parse_file_flat.
    destruct (for_each (concat presentation) PPTParser.parse_shape []) as [[[]|e] cs'];
      [|discriminate].
    intros H. injection H as <-. exact Hppt.
  - rewrite Hstate. exact Hpdf.
  - rewrite pptx_parse_file_flat.
    now destruct (for_each (concat presentation) PPTParser.parse_shape []) as [[[]|e] cs'].
Qed.

Lemma pdf_pptx_chunks_tagged_witness :
  (exists cs,
      fst (PDFParser.parse_file sample_read_pdf (PDFParser.init [])) = Return cs /\
      Forall (fun c => known_kind c = true) cs) /\
  (exists cs,
      fst (PPTParser.parse_file (PPTParser.init sample_pptx)) = Return cs /\
      Forall (fun c => known_kind c = true) cs) /\
  Forall (fun c => known_kind c = true)
    (PDFParser.chunks
       (snd (PDFParser.parse_file sample_read_pdf (PDFParser.init sample_pdf)))).
Proof.
  pose proof (pdf_pptx_chunks_tagged sample_read_pdf [] sample_pptx)
    as ((Hpdf & Hppt) & _).
  pose proof (pdf_pptx_chunks_tagged sample_read_pdf sample_pdf sample_pptx)
    as (_ & Hstate & _).
  split; [|split].
  - eexists. split; [reflexivity|]. apply Hpdf. reflexivity.
  - eexists. split; [reflexivity|]. apply Hppt. reflexivity.
  - exact Hstate.
Defined.

(** * The DOCX result as a whole *)

(** X11.  The DOCX chunks are grouped by kind, not by position in the
    document: [self.chunks] holds the chunks of all paragraphs and after
    them the tables, each as its bare grid of cell texts row by row.  A
    document without inline images returns this list.  A document with an
    inline image raises [AttributeError] in the third pass, after the
    paragraphs and the tables were appended, so no image chunk is ever
    emitted. *)
Theorem docx_grouped_by_kind (d : Docx) :
  DocxParser.chunks (snd (DocxParser.parse_file (DocxParser.init d))) =
    map docx_paragraph_chunk (paragraphs d) ++ map docx_table_chunk (tables d) /\
  (inline_shapes d = [] ->
   fst (DocxParser.parse_file (DocxParser.init d)) =
     Return (map docx_paragraph_chunk (paragraphs d) ++ map docx_table_chunk (tables d))) /\
  (inline_shapes d <> [] ->
   fst (DocxParser.parse_file (DocxParser.init d)) = Raise (AttributeError "docx")) /\
  (forall j table,
      nth_error (tables d) j = Some table ->
      nth_error (DocxParser.chunks (snd (DocxParser.parse_file (DocxParser.init d))))
                (List.length (paragraphs d) + j) =
        Some (PList (map (fun row => PList (map PStr row)) table))) /\
  Forall (fun c => is_kind "image" c = false)
    (DocxParser.chunks (snd (DocxParser.parse_file (DocxParser.init d)))).
Proof.
  rewrite docx_parse_file_init. cbn [fst snd DocxParser.chunks].
  split; [reflexivity|]. split; [|split; [|split]].
  - now intros ->.
  - intros Hne. destruct (inline_shapes d); [congruence | reflexivity].
  - intros j table Hj.
    rewrite nth_error_app2 by (rewrite length_map; lia).
    rewrite length_map, Nat.add_comm, Nat.add_sub.
    now rewrite nth_error_map, Hj.
  - rewrite Forall_app. split; apply Forall_map, Forall_forall; intros x _;
      [|reflexivity].
    unfold docx_paragraph_chunk. now destruct (startswith (style_name x) "List").
Qed.

Lemma docx_grouped_by_kind_witness :
  fst (DocxParser.parse_file (DocxParser.init sample_docx)) =
    Return [PStr "hello";
            PDict [("type", PStr "list"); ("data", PStr "item")];
            PList [PList [PStr "a"; PStr "b"]; PList [PStr "c"; PStr "d"]]] /\
  fst (DocxParser.parse_file (DocxParser.init sample_docx_with_image)) =
    Raise (AttributeError "docx").
Proof.
  pose proof (docx_grouped_by_kind sample_docx) as (_ & Hret & _).
  pose proof (docx_grouped_by_kind sample_docx_with_image) as (_ & _ & Hraise & _).
  split.
  - apply Hret. reflexivity.
  - apply Hraise. discriminate.
Defined.

(** X12.  [DocxParser.parse_file] does not reset [self.chunks]: a second
    call on the same parser appends every chunk once more, so on a document
    without inline images it returns the first result twice over. *)
Theorem docx_second_call_duplicates (d : Docx) :
  inline_shapes d = [] ->
  exists cs,
    fst (DocxParser.parse_file (DocxParser.init d)) = Return cs /\
    fst (DocxParser.parse_file (snd (DocxParser.parse_file (DocxParser.init d)))) =
      Return (cs ++ cs).
Proof.
  intros Hno. rewrite docx_parse_file_init.
  unfold DocxParser.parse_file. cbn [fst snd DocxParser.doc DocxParser.chunks].
  rewrite docx_parse_doc_from, Hno. cbn [fst].
  eexists. split; reflexivity.
Qed.

Lemma docx_second_call_duplicates_witness :
  exists cs,
    fst (DocxParser.parse_file (DocxParser.init sample_docx)) = Return cs /\
    fst (DocxParser.parse_file
           (snd (DocxParser.parse_file (DocxParser.init sample_docx)))) =
      Return (cs ++ cs).
Proof.
  apply (docx_second_call_duplicates sample_docx). reflexivity.
Defined.

(** * Keys of a Tabular Result *)

Lemma is_label_spec k labels : is_label k labels = true <-> In k labels.
Proof.
  unfold is_label. rewrite existsb_exists. split.
  - intros (l & Hin & Heq). apply String.eqb_eq in Heq. now subst.
  - intros Hin. exists k. split; [exact Hin | apply String.eqb_refl].
Qed.

Lemma is_label_false k labels : is_label k labels = false <-> ~ In k labels.
Proof.
  rewrite <- is_label_spec. destruct (is_label k labels); split; congruence.
Qed.

Lemma dict_keys_set k v d :
  dict_keys (dict_set k v d) =
  if is_label k (dict_keys d) then dict_keys d else dict_keys d ++ [k].
Proof.
  induction d as [|[k0 v0] d IH]; [reflexivity|].
  unfold dict_keys, is_label in *. cbn [dict_set].
  destruct (String.eqb k0 k) eqn:Hk; cbn [map fst existsb]; rewrite Hk; cbn [orb];
    [reflexivity|].
  rewrite IH. now destruct (existsb (fun l => String.eqb l k) (map fst d)).
Qed.

Lemma dict_keys_set_present k v d :
  In k (dict_keys d) -> dict_keys (dict_set k v d) = dict_keys d.
Proof.
  intros H. rewrite dict_keys_set. apply is_label_spec in H. now rewrite H.
Qed.

Lemma dict_keys_set_fresh k v d :
  ~ In k (dict_keys d) -> dict_keys (dict_set k v d) = dict_keys d ++ [k].
Proof.
  intros H. rewrite dict_keys_set. apply is_label_false in H. now rewrite H.
Qed.

(** Assignment keeps the keys of a dict distinct. *)
Lemma dict_set_nodup k v d :
  NoDup (dict_keys d) -> NoDup (dict_keys (dict_set k v d)).
Proof.
  intros H. rewrite dict_keys_set. destruct (is_label k (dict_keys d)) eqn:Hk; [exact H|].
  apply is_label_false in Hk. apply NoDup_app; [exact H | repeat constructor; auto |].
  intros a Ha [<-|[]]. contradiction.
Qed.

Lemma dict_get_none k d : dict_get k d = None <-> ~ In k (dict_keys d).
Proof.
  induction d as [|[k0 v0] d IH]; [simpl; tauto|].
  cbn [dict_get dict_keys map fst In]. destruct (String.eqb_spec k0 k) as [->|Hne].
  - split; [discriminate | intros H; exfalso; apply H; now left].
  - fold (dict_keys d). rewrite IH. tauto.
Qed.

(** Two dicts with the same keys in the same order, all distinct, and the
    same value under every key are the same dict. *)
Lemma dict_ext d1 d2 :
  dict_keys d1 = dict_keys d2 -> NoDup (dict_keys d1) ->
  (forall k, dict_get k d1 = dict_get k d2) -> d1 = d2.
Proof.
  revert d2. induction d1 as [|[k1 v1] d1 IH]; intros [|[k2 v2] d2] Hk Hnd Hget;
    try discriminate; [reflexivity|].
  unfold dict_keys in *. simpl in Hk, Hnd. injection Hk as Hk1 Hk. subst k2.
  apply NoDup_cons_iff in Hnd as [Hnot Hnd].
  pose proof (Hget k1) as H1. cbn [dict_get] in H1. rewrite String.eqb_refl in H1.
  injection H1 as H1. subst v2. f_equal. apply IH; [exact Hk | exact Hnd |].
  intros k. specialize (Hget k). cbn [dict_get] in Hget.
  destruct (String.eqb_spec k1 k) as [Heq|_]; [subst k|exact Hget].
  transitivity (@None pyval); [|symmetry]; apply dict_get_none; unfold dict_keys.
  - exact Hnot.
  - now rewrite <- Hk.
Qed.

Lemma for_each_invariant_in {S X} (P : S -> Prop) (xs : list X) (body : X -> M S unit) s :
  (forall x s0, In x xs -> P s0 -> P (snd (body x s0))) ->
  P s -> P (snd (for_each xs body s)).
Proof.
  revert s. induction xs as [|x xs IH]; intros s Hbody Hs; [exact Hs|].
  rewrite for_each_cons. pose proof (Hbody x s (or_introl eq_refl) Hs) as Hx.
  destruct (body x s) as [[[]|e] s']; simpl in *; [|exact Hx].
  apply IH; [|exact Hx]. intros y s0 Hy. apply Hbody. now right.
Qed.

Section TabularKeys.
Variable df : DataFrame.

(** Every key the two loops assign: a property of the state that each of
    these assignments keeps is kept by the whole [parse_frame]. *)
Lemma csv_parse_frame_keeps (P : dict -> Prop) d0 :
  (forall k v d, In k (columns df) \/ k = "dataframe" \/ k = "headers" ->
                 P d -> P (dict_set k v d)) ->
  P d0 -> P (snd (CSVParser.parse_frame df d0)).
Proof.
  intros Hset H0. unfold CSVParser.parse_frame, bind at 1.
  pose proof (for_each_invariant_in P (columns df)
                (fun i => col <- lift (column_tolist df i) ;; setitem i (PList col)) d0)
    as Hloop.
  destruct (for_each (columns df) _ d0) as [[[]|e] d'] eqn:Hrun; simpl in Hloop |- *.
  - apply Hset; [tauto|]. apply Hset; [tauto|]. apply Hloop; [|exact H0].
    intros i s0 Hi Hs. unfold bind, lift, setitem.
    destruct (column_tolist df i); simpl; [apply Hset; tauto | exact Hs].
  - apply Hloop; [|exact H0].
    intros i s0 Hi Hs. unfold bind, lift, setitem.
    destruct (column_tolist df i); simpl; [apply Hset; tauto | exact Hs].
Qed.

Lemma tsv_parse_frame_keeps (P : dict -> Prop) d0 :
  (forall k v d, In k (columns df) \/ k = "dataframe" \/ k = "headers" ->
                 P d -> P (dict_set k v d)) ->
  P d0 -> P (snd (TSVParser.parse_frame df d0)).
Proof.
  intros Hset H0. unfold TSVParser.parse_frame, bind at 1.
  pose proof (for_each_invariant_in P (columns df)
                (fun i => col <- lift (column_tolist df i) ;;
                          setitem i (PList col) ;;
                          setitem "dataframe" (frame_val df) ;;
                          setitem "headers" (PIndex (columns df))) d0)
    as Hloop.
  assert (Hbody : forall i s0, In i (columns df) -> P s0 ->
            P (snd ((col <- lift (column_tolist df i) ;;
                     setitem i (PList col) ;;
                     setitem "dataframe" (frame_val df) ;;
                     setitem "headers" (PIndex (columns df))) s0))).
  { intros i s0 Hi Hs. unfold bind, lift, setitem.
    destruct (column_tolist df i); simpl; [|exact Hs].
    apply Hset; [tauto|]. apply Hset; [tauto|]. apply Hset; tauto. }
  specialize (Hloop Hbody H0).
  now destruct (for_each (columns df) _ d0) as [[[]|e] d'].
Qed.

Lemma tsv_parse_frame_state d0 :
  forall t, fst (TSVParser.parse_frame df d0) = Return t ->
            snd (TSVParser.parse_frame df d0) = t.
Proof.
  intros t. unfold TSVParser.parse_frame, bind, get.
  destruct (for_each (columns df) _ d0) as [[[]|e] d']; simpl; congruence.
Qed.

Lemma csv_parse_frame_state d0 :
  forall c, fst (CSVParser.parse_frame df d0) = Return c ->
            snd (CSVParser.parse_frame df d0) = c.
Proof.
  intros c. unfold CSVParser.parse_frame, bind, get, setitem.
  destruct (for_each (columns df) _ d0) as [[[]|e] d']; simpl; congruence.
Qed.

End TabularKeys.

Section PandasKeys.
Variable read_csv : string -> string -> outcome DataFrame.

Lemma csv_extract_frame path df :
  read_csv path "," = Return df ->
  CSVParser.extract read_csv path = fst (CSVParser.parse_frame df []).
Proof.
  intros H. unfold CSVParser.extract, CSVParser.init, CSVParser.parse_file.
  rewrite H. simpl. now destruct (CSVParser.parse_frame df []).
Qed.

Lemma tsv_extract_frame path df :
  read_csv path tab = Return df ->
  TSVParser.extract read_csv path = fst (TSVParser.parse_frame df []).
Proof.
  intros H. unfold TSVParser.extract, TSVParser.init, TSVParser.parse_file.
  rewrite H. simpl. now destruct (TSVParser.parse_frame df []).
Qed.

(** X14.  The keys of a CSV result are the column names, [headers] and
    [dataframe], and nothing else. *)
Theorem csv_result_keys (csv_path : string) (df : DataFrame) :
  read_csv csv_path "," = Return df ->
  exists c,
    CSVParser.extract read_csv csv_path = Return c /\
    forall k, In k (dict_keys c) <->
              In k (columns df) \/ k = "headers" \/ k = "dataframe".
Proof.
  intros Hread. destruct (csv_parse_frame df) as (c & Hc & Hget).
  exists c. split; [rewrite (csv_extract_frame _ _ Hread); now rewrite Hc|].
  intros k. split.
  - intros Hin. destruct (String.eqb_spec "headers" k) as [<-|Hh]; [tauto|].
    destruct (String.eqb_spec "dataframe" k) as [<-|Hd]; [tauto|].
    left. apply is_label_spec. destruct (is_label k (columns df)) eqn:Hl; [reflexivity|].
    exfalso. assert (Hnone : dict_get k c = None).
    { rewrite Hget. apply String.eqb_neq in Hh, Hd. now rewrite Hh, Hd, Hl. }
    apply dict_get_none in Hnone. contradiction.
  - intros Hk. destruct (in_dec string_dec k (dict_keys c)) as [Hin|Hnot]; [exact Hin|].
    exfalso. apply dict_get_none in Hnot. rewrite Hget in Hnot.
    destruct (String.eqb_spec "headers" k) as [|Hh]; [discriminate|].
    destruct (String.eqb_spec "dataframe" k) as [|Hd]; [discriminate|].
    destruct Hk as [Hk|[Hk|Hk]]; try congruence.
    rewrite (is_label_in _ _ Hk) in Hnot.
    destruct (column_tolist_in df k Hk) as [cells Hcells].
    unfold column_entry in Hnot. rewrite Hcells in Hnot. discriminate.
Qed.

End PandasKeys.

Lemma csv_result_keys_witness :
  exists c,
    CSVParser.extract sample_read_csv "people.csv" = Return c /\
    forall k, In k (dict_keys c) <->
              In k (columns sample_frame) \/ k = "headers" \/ k = "dataframe".
Proof.
  apply (csv_result_keys sample_read_csv "people.csv" sample_frame). reflexivity.
Defined.

(** * Order of the keys, second calls, columns by label *)

Section TabularOrder.
Variable df : DataFrame.

Lemma csv_loop_keys cols d :
  incl cols (columns df) -> NoDup cols ->
  (forall c, In c cols -> ~ In c (dict_keys d)) ->
  exists d',
    for_each cols (fun i =>
      col <- lift (column_tolist df i) ;;
      setitem i (PList col)) d = (Return tt, d') /\
    dict_keys d' = dict_keys d ++ cols.
Proof.
  revert d. induction cols as [|c cols IH]; intros d Hincl Hnd Hfresh.
  - exists d. split; [reflexivity | now rewrite app_nil_r].
  - destruct (column_tolist_in df c (Hincl c (or_introl eq_refl))) as [cells Hc].
    apply NoDup_cons_iff in Hnd as [Hc_new Hnd].
    destruct (IH (dict_set c (PList cells) d)) as (d' & Hrun & Hkeys).
    + intros x Hx. apply Hincl. now right.
    + exact Hnd.
    + intros c' Hc'. rewrite dict_keys_set_fresh by (apply Hfresh; now left).
      intros Hin. apply in_app_or in Hin as [Hin|[<-|[]]].
      * apply (Hfresh c'); [now right | exact Hin].
      * contradiction.
    + exists d'. split.
      * rewrite for_each_cons. unfold bind at 1, lift at 1. rewrite Hc.
        unfold setitem at 1. exact Hrun.
      * rewrite Hkeys, dict_keys_set_fresh by (apply Hfresh; now left).
        now rewrite <- app_assoc.
Qed.

Lemma tsv_loop_keys cols d :
  incl cols (columns df) -> NoDup cols ->
  (forall c, In c cols -> ~ In c (dict_keys d)) ->
  In "dataframe" (dict_keys d) -> In "headers" (dict_keys d) ->
  exists d',
    for_each cols (fun i =>
      col <- lift (column_tolist df i) ;;
      setitem i (PList col) ;;
      setitem "dataframe" (frame_val df) ;;
      setitem "headers" (PIndex (columns df))) d = (Return tt, d') /\
    dict_keys d' = dict_keys d ++ cols.
Proof.
  revert d. induction cols as [|c cols IH]; intros d Hincl Hnd Hfresh Hd Hh.
  - exists d. split; [reflexivity | now rewrite app_nil_r].
  - destruct (column_tolist_in df c (Hincl c (or_introl eq_refl))) as [cells Hc].
    apply NoDup_cons_iff in Hnd as [Hc_new Hnd].
    assert (Hkeys3 :
      dict_keys (dict_set "headers" (PIndex (columns df))
                   (dict_set "dataframe" (frame_val df)
                      (dict_set c (PList cells) d))) = dict_keys d ++ [c]).
    { assert (K1 : dict_keys (dict_set c (PList cells) d) = dict_keys d ++ [c])
        by (apply dict_keys_set_fresh, Hfresh; now left).
      assert (K2 : dict_keys (dict_set "dataframe" (frame_val df)
                                (dict_set c (PList cells) d)) = dict_keys d ++ [c]).
      { rewrite dict_keys_set_present; [exact K1|].
        rewrite K1. apply in_or_app. now left. }
      rewrite dict_keys_set_present; [exact K2|].
      rewrite K2. apply in_or_app. now left. }
    destruct (IH (dict_set "headers" (PIndex (columns df))
                    (dict_set "dataframe" (frame_val df)
                       (dict_set c (PList cells) d)))) as (d' & Hrun & Hkeys).
    + intros x Hx. apply Hincl. now right.
    + exact Hnd.
    + intros c' Hc'. rewrite Hkeys3.
      intros Hin. apply in_app_or in Hin as [Hin|[<-|[]]].
      * apply (Hfresh c'); [now right | exact Hin].
      * contradiction.
    + rewrite Hkeys3. apply in_or_app. now left.
    + rewrite Hkeys3. apply in_or_app. now left.
    + exists d'. split.
      * rewrite for_each_cons. unfold bind at 1, bind at 1, lift at 1. rewrite Hc.
        unfold setitem at 1, bind at 1, setitem at 1, setitem at 1. exact Hrun.
      * rewrite Hkeys, Hkeys3. now rewrite <- app_assoc.
Qed.

Lemma csv_parse_frame_from d0 :
  exists d,
    CSVParser.parse_frame df d0 = (Return d, d) /\
    forall k, dict_get k d =
              if String.eqb "headers" k then Some (PIndex (columns df))
              else if String.eqb "dataframe" k then Some (frame_val df)
              else if is_label k (columns df) then column_entry df k
              else dict_get k d0.
Proof.
  destruct (csv_loop df (columns df) d0 (incl_refl _)) as (d' & Hrun & Hget).
  exists (dict_set "headers" (PIndex (columns df))
            (dict_set "dataframe" (frame_val df) d')).
  split.
  - unfold CSVParser.parse_frame, bind at 1. rewrite Hrun. reflexivity.
  - intros k. rewrite !dict_get_set, Hget. reflexivity.
Qed.

Lemma tsv_parse_frame_from d0 :
  columns df <> [] ->
  exists d,
    TSVParser.parse_frame df d0 = (Return d, d) /\
    forall k, dict_get k d =
              if String.eqb "headers" k then Some (PIndex (columns df))
              else if String.eqb "dataframe" k then Some (frame_val df)
              else if is_label k (columns df) then column_entry df k
              else dict_get k d0.
Proof.
  intros Hcols.
  destruct (tsv_loop df (columns df) d0 (incl_refl _)) as (d' & Hrun & Hget).
  exists d'. split.
  - unfold TSVParser.parse_frame, bind at 1. rewrite Hrun. reflexivity.
  - intros k. rewrite Hget. destruct (columns df); [congruence | reflexivity].
Qed.

(** A result holds every key the parsers assign. *)
Lemma result_has_keys d :
  (forall k, dict_get k d =
             if String.eqb "headers" k then Some (PIndex (columns df))
             else if String.eqb "dataframe" k then Some (frame_val df)
             else if is_label k (columns df) then column_entry df k
             else None) ->
  forall k, In k (columns df) \/ k = "dataframe" \/ k = "headers" -> In k (dict_keys d).
Proof.
  intros Hget k Hk.
  destruct (in_dec string_dec k (dict_keys d)) as [Hin|Hnot]; [exact Hin|].
  exfalso. apply dict_get_none in Hnot. rewrite Hget in Hnot.
  destruct (String.eqb_spec "headers" k) as [|Hh]; [discriminate|].
  destruct (String.eqb_spec "dataframe" k) as [|Hd]; [discriminate|].
  destruct Hk as [Hk|[Hk|Hk]]; try congruence.
  rewrite (is_label_in _ _ Hk) in Hnot.
  destruct (column_tolist_in df k Hk) as [cells Hcells].
  unfold column_entry in Hnot. rewrite Hcells in Hnot. discriminate.
Qed.

Lemma result_fixed d d2 :
  (forall k, dict_get k d =
             if String.eqb "headers" k then Some (PIndex (columns df))
             else if String.eqb "dataframe" k then Some (frame_val df)
             else if is_label k (columns df) then column_entry df k
             else None) ->
  (forall k, dict_get k d2 =
             if String.eqb "headers" k then Some (PIndex (columns df))
             else if String.eqb "dataframe" k then Some (frame_val df)
             else if is_label k (columns df) then column_entry df k
             else dict_get k d) ->
  NoDup (dict_keys d) -> dict_keys d2 = dict_keys d -> d2 = d.
Proof.
  intros Hget Hget2 Hnd Hkeys. apply dict_ext; [exact Hkeys | now rewrite Hkeys |].
  intros k. rewrite Hget2, Hget.
  destruct (String.eqb "headers" k); [reflexivity|].
  destruct (String.eqb "dataframe" k); [reflexivity|].
  now destruct (is_label k (columns df)).
Qed.

(** X16.  The tabular parsers are idempotent where the chunk parsers are
    not: a second [parse_file] on the same parser assigns the same keys
    again and returns the very dict of the first call. *)
Theorem tabular_second_call_same :
  (exists c,
      CSVParser.parse_file {| CSVParser.dataframe := df; CSVParser.chunks := [] |} =
        (Return c, {| CSVParser.dataframe := df; CSVParser.chunks := c |}) /\
      CSVParser.parse_file {| CSVParser.dataframe := df; CSVParser.chunks := c |} =
        (Return c, {| CSVParser.dataframe := df; CSVParser.chunks := c |})) /\
  (exists t,
      TSVParser.parse_file {| TSVParser.dataframe := df; TSVParser.chunks := [] |} =
        (Return t, {| TSVParser.dataframe := df; TSVParser.chunks := t |}) /\
      TSVParser.parse_file {| TSVParser.dataframe := df; TSVParser.chunks := t |} =
        (Return t, {| TSVParser.dataframe := df; TSVParser.chunks := t |})).
Proof.
  split.
  - destruct (csv_parse_frame_from []) as (c & Hc & Hget).
    destruct (csv_parse_frame_from c) as (c2 & Hc2 & Hget2).
    assert (Hnd : NoDup (dict_keys c)).
    { replace c with (snd (CSVParser.parse_frame df [])) by now rewrite Hc.
      apply csv_parse_frame_keeps; [|constructor].
      intros k v d _. apply dict_set_nodup. }
    assert (Hkeys : dict_keys c2 = dict_keys c).
    { replace c2 with (snd (CSVParser.parse_frame df c)) by now rewrite Hc2.
      apply (csv_parse_frame_keeps df (fun d => dict_keys d = dict_keys c));
        [|reflexivity].
      intros k v d Hk Hd. rewrite dict_keys_set_present; [exact Hd|].
      rewrite Hd. now apply (result_has_keys c Hget). }
    assert (c2 = c) as -> by (eapply result_fixed; eauto).
    exists c. unfold CSVParser.parse_file.
    cbn [CSVParser.dataframe CSVParser.chunks]. now rewrite Hc, Hc2.
  - destruct (columns df) as [|first rest] eqn:Hcols.
    + exists []. unfold TSVParser.parse_file, TSVParser.parse_frame.
      cbn [TSVParser.dataframe TSVParser.chunks]. rewrite Hcols. split; reflexivity.
    + assert (Hne : columns df <> []) by (rewrite Hcols; discriminate).
      destruct (tsv_parse_frame_from [] Hne) as (t & Ht & Hget).
      destruct (tsv_parse_frame_from t Hne) as (t2 & Ht2 & Hget2).
      rewrite Hcols in Hget, Hget2. rewrite <- Hcols in Hget, Hget2.
      assert (Hnd : NoDup (dict_keys t)).
      { replace t with (snd (TSVParser.parse_frame df [])) by now rewrite Ht.
        apply tsv_parse_frame_keeps; [|constructor].
        intros k v d _. apply dict_set_nodup. }
      assert (Hkeys : dict_keys t2 = dict_keys t).
      { replace t2 with (snd (TSVParser.parse_frame df t)) by now rewrite Ht2.
        apply (tsv_parse_frame_keeps df (fun d => dict_keys d = dict_keys t));
          [|reflexivity].
        intros k v d Hk Hd. rewrite dict_keys_set_present; [exact Hd|].
        rewrite Hd. now apply (result_has_keys t Hget). }
      assert (t2 = t) as -> by (eapply result_fixed; eauto).
      exists t. unfold TSVParser.parse_file.
      cbn [TSVParser.dataframe TSVParser.chunks]. now rewrite Ht, Ht2.
Qed.

End TabularOrder.

Lemma index_of_nth labels j label :
  NoDup labels -> nth_error labels j = Some label -> index_of label labels = Some j.
Proof.
  revert j. induction labels as [|l labels IH]; intros j Hnd Hj.
  - destruct j; discriminate.
  - apply NoDup_cons_iff in Hnd as [Hnot Hnd]. destruct j as [|j]; simpl in Hj.
    + injection Hj as ->. simpl. now rewrite String.eqb_refl.
    + simpl. destruct (String.eqb_spec l label) as [->|_].
      * exfalso. apply Hnot. eapply nth_error_In. exact Hj.
      * now rewrite (IH j Hnd Hj).
Qed.

Section PandasOrder.
Variable read_csv : string -> string -> outcome DataFrame.

(** X15.  For a frame whose columns have distinct names, none of them
    [headers] or [dataframe], the keys of the CSV result are the columns in
    header order followed by [dataframe] and [headers]; the keys of the TSV
    result are the first column, [dataframe], [headers], and then the other
    columns: the two results list the same keys in different orders. *)
Theorem tabular_key_order
    (csv_path tsv_path : string) (df : DataFrame) (first : string) (rest : list string) :
  read_csv csv_path "," = Return df ->
  read_csv tsv_path tab = Return df ->
  columns df = first :: rest ->
  NoDup (columns df) ->
  ~ In "headers" (columns df) -> ~ In "dataframe" (columns df) ->
  exists c t,
    CSVParser.extract read_csv csv_path = Return c /\
    TSVParser.extract read_csv tsv_path = Return t /\
    dict_keys c = first :: rest ++ ["dataframe"; "headers"] /\
    dict_keys t = first :: "dataframe" :: "headers" :: rest.
Proof.
  intros Hcsv Htsv Hcols Hnd Hh Hd.
  destruct (csv_loop_keys df (columns df) [] (incl_refl _) Hnd (fun c _ H => H))
    as (c' & Hc' & Hkc').
  assert (Hfirst : In first (columns df)) by (rewrite Hcols; now left).
  destruct (column_tolist_in df first Hfirst) as [cells Hcells].
  assert (Hf_h : first <> "headers") by (intros ->; contradiction).
  assert (Hf_d : first <> "dataframe") by (intros ->; contradiction).
  assert (Hnd' : NoDup rest)
    by (rewrite Hcols in Hnd; now apply NoDup_cons_iff in Hnd).
  assert (Hfresh : ~ In first rest)
    by (rewrite Hcols in Hnd; now apply NoDup_cons_iff in Hnd).
  destruct (tsv_loop_keys df rest
              [(first, PList cells); ("dataframe", frame_val df);
               ("headers", PIndex (columns df))]) as (t & Ht & Hkt).
  { intros x Hx. rewrite Hcols. now right. }
  { exact Hnd'. }
  { intros x Hx [<-|[<-|[<-|[]]]].
    - contradiction.
    - apply Hd. rewrite Hcols. now right.
    - apply Hh. rewrite Hcols. now right. }
  { simpl. tauto. }
  { simpl. tauto. }
  exists (dict_set "headers" (PIndex (columns df))
            (dict_set "dataframe" (frame_val df) c')), t.
  split; [|split; [|split]].
  - rewrite (csv_extract_frame _ _ _ Hcsv).
    unfold CSVParser.parse_frame, bind at 1. now rewrite Hc'.
  - rewrite (tsv_extract_frame _ _ _ Htsv).
    unfold TSVParser.parse_frame, bind at 1. rewrite Hcols, for_each_cons.
    unfold bind at 1, bind at 1, lift at 1. rewrite Hcells.
    unfold setitem at 1, bind at 1, setitem at 1, setitem at 1.
    cbn [dict_set].
    apply String.eqb_neq in Hf_h, Hf_d. rewrite Hf_d. cbn [dict_set]. rewrite Hf_h.
    cbn [dict_set String.eqb Ascii.eqb Bool.eqb andb].
    rewrite <- Hcols, Ht. reflexivity.
  - assert (K1 : dict_keys (dict_set "dataframe" (frame_val df) c') =
                 columns df ++ ["dataframe"]).
    { rewrite dict_keys_set_fresh; rewrite Hkc'; simpl; auto. }
    rewrite dict_keys_set_fresh; rewrite K1.
    + rewrite Hcols, <- app_assoc. reflexivity.
    + intros Hin. apply in_app_or in Hin as [Hin|[Heq|[]]]; [contradiction | discriminate].
  - rewrite Hkt. reflexivity.
Qed.

(** X17.  Under the name of a column the CSV result lists the cells of that
    column, one per row and in row order: for the column at position [j] of
    the header row, the [j]-th cell of every row. *)
Theorem csv_column_cells
    (csv_path : string) (df : DataFrame) (label : string) (j : nat) :
  read_csv csv_path "," = Return df ->
  NoDup (columns df) ->
  nth_error (columns df) j = Some label ->
  label <> "headers" -> label <> "dataframe" ->
  exists c cells,
    CSVParser.extract read_csv csv_path = Return c /\
    dict_get label c = Some (PList cells) /\
    cells = map (fun row => nth j row PNone) (values df) /\
    List.length cells = List.length (values df).
Proof.
  intros Hcsv Hnd Hj Hh Hd. destruct (csv_parse_frame df) as (c & Hc & Hget).
  exists c, (map (fun row => nth j row PNone) (values df)).
  split; [rewrite (csv_extract_frame _ _ _ Hcsv); now rewrite Hc|].
  split; [|split; [reflexivity | apply length_map]].
  rewrite Hget. apply String.eqb_neq in Hh, Hd.
  rewrite String.eqb_sym, Hh, String.eqb_sym, Hd.
  rewrite (is_label_in label (columns df) (nth_error_In _ _ Hj)).
  unfold column_entry, column_tolist. now rewrite (index_of_nth _ _ _ Hnd Hj).
Qed.

End PandasOrder.

Lemma tabular_key_order_witness :
  exists c t,
    CSVParser.extract (fun _ _ => Return sample_plain_frame) "a.csv" = Return c /\
    TSVParser.extract (fun _ _ => Return sample_plain_frame) "a.tsv" = Return t /\
    dict_keys c = "name" :: ["age"] ++ ["dataframe"; "headers"] /\
    dict_keys t = "name" :: "dataframe" :: "headers" :: ["age"].
Proof.
  apply (tabular_key_order (fun _ _ => Return sample_plain_frame) "a.csv" "a.tsv"
           sample_plain_frame "name" ["age"]); try reflexivity.
  - repeat constructor; simpl; intuition discriminate.
  - simpl. intuition discriminate.
  - simpl. intuition discriminate.
Defined.

Lemma csv_column_cells_witness :
  exists c cells,
    CSVParser.extract sample_read_csv "people.csv" = Return c /\
    dict_get "name" c = Some (PList cells) /\
    cells = map (fun row => nth 0 row PNone) (values sample_frame) /\
    List.length cells = List.length (values sample_frame).
Proof.
  apply (csv_column_cells sample_read_csv "people.csv" sample_frame "name" 0).
  - reflexivity.
  - repeat constructor; simpl; intuition discriminate.
  - reflexivity.
  - discriminate.
  - discriminate.
Defined.

(** * FileParser: the menu *)

Lemma substring_all (s : string) : substring 0 (String.length s) s = s.
Proof. induction s as [|c s IH]; simpl; [reflexivity | now rewrite IH]. Qed.

Lemma substring_skip (a b : string) :
  substring (String.length a) (String.length b) (String.append a b) = b.
Proof. induction a as [|c a IH]; simpl; [apply substring_all | exact IH]. Qed.

(** A path made of any name and the suffix ends with the suffix. *)
Lemma endswith_append (name suffix : string) :
  endswith (String.append name suffix) suffix = true.
Proof.
  unfold endswith. rewrite string_length_append.
  replace (String.length name + String.length suffix - String.length suffix)%nat
    with (String.length name) by lia.
  rewrite substring_skip, String.eqb_refl, andb_true_r.
  apply Nat.leb_le. lia.
Qed.

Section Menu.
Variable env : Decoders.

Lemma parse_file_unselected w :
  FileParser.file_path w = "" \/ FileParser.file_type w = "" ->
  FileParser.parse_file env w =
  (Ok tt, printed w [Line "Error: Please select a file first"]).
Proof.
  intros H. unfold FileParser.parse_file, FileParser.io_bind, FileParser.get_self.
  assert (Hc : String.eqb (FileParser.file_path w) ""
               || String.eqb (FileParser.file_type w) "" = true).
  { destruct H as [-> | ->]; [reflexivity | apply orb_true_r]. }
  now rewrite Hc.
Qed.

Lemma parse_file_dispatch w :
  FileParser.file_path w <> "" ->
  In (FileParser.file_type w) FileParser.supported ->
  FileParser.parse_file env w =
  if endswith (FileParser.file_path w) (extension (FileParser.file_type w)) then
    match logical_chunks env (FileParser.file_type w) (FileParser.file_path w) with
    | Return v =>
        (Ok tt,
         printed w [Line "Checking file type...";
                    Line "File type matches the file extension";
                    Line (String.append "Parsing "
                            (String.append (printed_name (FileParser.file_type w))
                                           " file..."));
                    Value v])
    | Raise e =>
        (Failed (ParserRaised e),
         printed w [Line "Checking file type...";
                    Line "File type matches the file extension"])
    end
  else
    (Ok tt,
     printed w [Line "Checking file type...";
                Line "Error: File type does not match the file extension"]).
Proof.
  destruct w as [path type lines out]. cbn [FileParser.file_path FileParser.file_type].
  intros Hpath Htype. apply String.eqb_neq in Hpath.
  unfold FileParser.parse_file, FileParser.io_bind, FileParser.get_self, printed,
    logical_chunks.
  cbn [FileParser.file_path FileParser.file_type FileParser.stdin FileParser.stdout].
  rewrite Hpath.
  destruct Htype as [<-|[<-|[<-|[<-|[<-|[]]]]]];
    cbn [String.eqb Ascii.eqb Bool.eqb andb orb extension printed_name String.append];
    match goal with
    | |- context [endswith path ?ext] => destruct (endswith path ext)
    end;
    unfold FileParser.print, FileParser.write, FileParser.call;
    cbn [negb FileParser.file_path FileParser.file_type FileParser.stdin
         FileParser.stdout];
    try (rewrite <- !app_assoc; reflexivity).
  - destruct (CSVParser.extract (pd_read_csv env) path);
      cbn [FileParser.file_path FileParser.file_type FileParser.stdin
           FileParser.stdout]; rewrite <- !app_assoc; reflexivity.
  - destruct (TSVParser.extract (pd_read_csv env) path);
      cbn [FileParser.file_path FileParser.file_type FileParser.stdin
           FileParser.stdout]; rewrite <- !app_assoc; reflexivity.
  - destruct (FileParser.pdf_chunks env path);
      cbn [FileParser.file_path FileParser.file_type FileParser.stdin
           FileParser.stdout]; rewrite <- !app_assoc; reflexivity.
  - destruct (FileParser.ppt_chunks env path);
      cbn [FileParser.file_path FileParser.file_type FileParser.stdin
           FileParser.stdout]; rewrite <- !app_assoc; reflexivity.
  - destruct (FileParser.docx_chunks env path);
      cbn [FileParser.file_path FileParser.file_type FileParser.stdin
           FileParser.stdout]; rewrite <- !app_assoc; reflexivity.
Qed.

Lemma parse_file_unsupported w :
  FileParser.file_path w <> "" -> FileParser.file_type w <> "" ->
  ~ In (FileParser.file_type w) FileParser.supported ->
  FileParser.parse_file env w = (Ok tt, printed w [Line "Checking file type..."]).
Proof.
  destruct w as [path type lines out]. cbn [FileParser.file_path FileParser.file_type].
  intros Hpath Htype Hnot. apply String.eqb_neq in Hpath, Htype.
  unfold FileParser.parse_file, FileParser.io_bind, FileParser.get_self, printed.
  cbn [FileParser.file_path FileParser.file_type FileParser.stdin FileParser.stdout].
  rewrite Hpath, Htype. cbn [orb].
  assert (H : forall s, In s FileParser.supported -> String.eqb type s = false).
  { intros s Hs. apply String.eqb_neq. intros ->. contradiction. }
  rewrite !H by (simpl; tauto). reflexivity.
Qed.

End Menu.

Section MenuProperties.
Variable env : Decoders.

(** X18.  [FileParser.parse_file] before any selection, or with an empty
    path or an empty type selected, only reports that a file must be
    selected first: whatever the files hold, no parser is called and the
    extension is not looked at. *)
Theorem menu_parse_needs_selection (w : FileParser.t) :
  FileParser.file_path w = "" \/ FileParser.file_type w = "" ->
  FileParser.parse_file env w =
  (Ok tt, printed w [Line "Error: Please select a file first"]).
Proof. apply parse_file_unselected. Qed.

(** X19.  With a non-empty path and a supported type selected, when the
    path does not end with the extension of that type ([.pptx] for the type
    [ppt], a dot and the type for the others), [FileParser.parse_file]
    prints the progress line and the mismatch error and calls no parser. *)
Theorem menu_extension_mismatch (w : FileParser.t) :
  FileParser.file_path w <> "" ->
  In (FileParser.file_type w) FileParser.supported ->
  endswith (FileParser.file_path w) (extension (FileParser.file_type w)) = false ->
  FileParser.parse_file env w =
  (Ok tt,
   printed w [Line "Checking file type...";
              Line "Error: File type does not match the file extension"]).
Proof.
  intros Hpath Htype Hext. rewrite (parse_file_dispatch env w Hpath Htype).
  now rewrite Hext.
Qed.

(** X20.  With a supported type selected and a path that ends with its
    extension, [FileParser.parse_file] calls the parser class of the type on
    the path and prints what it returns after the two progress lines and the
    line naming the type; when the parser raises, the exception leaves
    [parse_file] after the two progress lines and nothing more is printed. *)
Theorem menu_parse_prints_result (w : FileParser.t) :
  FileParser.file_path w <> "" ->
  In (FileParser.file_type w) FileParser.supported ->
  endswith (FileParser.file_path w) (extension (FileParser.file_type w)) = true ->
  FileParser.parse_file env w =
  match logical_chunks env (FileParser.file_type w) (FileParser.file_path w) with
  | Return v =>
      (Ok tt,
       printed w [Line "Checking file type...";
                  Line "File type matches the file extension";
                  Line (String.append "Parsing "
                          (String.append (printed_name (FileParser.file_type w))
                                         " file..."));
                  Value v])
  | Raise e =>
      (Failed (ParserRaised e),
       printed w [Line "Checking file type...";
                  Line "File type matches the file extension"])
  end.
Proof.
  intros Hpath Htype Hext. rewrite (parse_file_dispatch env w Hpath Htype).
  now rewrite Hext.
Qed.

(** X21.  [select_file] stores a type it reports as unsupported, and
    [parse_file] has no branch for it: with such a type and a path selected
    it prints the progress line [Checking file type...] and nothing else,
    neither an error nor a result. *)
Theorem menu_unsupported_type_silent (w : FileParser.t) :
  FileParser.file_path w <> "" -> FileParser.file_type w <> "" ->
  ~ In (FileParser.file_type w) FileParser.supported ->
  FileParser.parse_file env w = (Ok tt, printed w [Line "Checking file type..."]).
Proof. apply parse_file_unsupported. Qed.

Lemma parse_file_frame (w : FileParser.t) :
  FileParser.file_path (snd (FileParser.parse_file env w)) = FileParser.file_path w /\
  FileParser.file_type (snd (FileParser.parse_file env w)) = FileParser.file_type w /\
  FileParser.stdin (snd (FileParser.parse_file env w)) = FileParser.stdin w /\
  exists os,
    FileParser.stdout (snd (FileParser.parse_file env w)) = FileParser.stdout w ++ os.
Proof.
  destruct (string_dec (FileParser.file_path w) "") as [Hp|Hp].
  { rewrite parse_file_unselected by now left. repeat split. now eexists. }
  destruct (string_dec (FileParser.file_type w) "") as [Ht|Ht].
  { rewrite parse_file_unselected by now right. repeat split. now eexists. }
  destruct (in_dec string_dec (FileParser.file_type w) FileParser.supported) as [Hs|Hs].
  - rewrite (parse_file_dispatch env w Hp Hs).
    destruct (endswith _ _);
      [destruct (logical_chunks env _ _)|]; repeat split; now eexists.
  - rewrite (parse_file_unsupported env w Hp Ht Hs). repeat split. now eexists.
Qed.

(** X22.  [FileParser.parse_file] never changes the selection and never
    reads a line: whatever it does, path, type and pending input are as
    before and the output has only grown. *)
Theorem menu_parse_keeps_selection (w : FileParser.t) :
  FileParser.file_path (snd (FileParser.parse_file env w)) = FileParser.file_path w /\
  FileParser.file_type (snd (FileParser.parse_file env w)) = FileParser.file_type w /\
  FileParser.stdin (snd (FileParser.parse_file env w)) = FileParser.stdin w /\
  exists os,
    FileParser.stdout (snd (FileParser.parse_file env w)) = FileParser.stdout w ++ os.
Proof. apply parse_file_frame. Qed.

End MenuProperties.

(** X23.  [select_file] reads the path and then the type and stores each as
    soon as it is read: it answers whether the type is one of the five
    supported ones, but the selection is stored in either case, and when the
    input ends after the path the path is already stored while the type is
    still the old one. *)
Theorem menu_select_file (w : FileParser.t) (path type : string) (rest : list string) :
  (FileParser.stdin w = path :: type :: rest ->
   FileParser.select_file w =
   (Ok (existsb (String.eqb type) FileParser.supported),
    {| FileParser.file_path := path;
       FileParser.file_type := type;
       FileParser.stdin := rest;
       FileParser.stdout :=
         FileParser.stdout w ++
         [Prompt "Enter the file path: ";
          Prompt "Enter the file type ( csv, tsv, pdf, ppt, docx): ";
          Line (if existsb (String.eqb type) FileParser.supported
                then "File selected successfully"
                else "Error: Unsupported file type")] |})) /\
  (FileParser.stdin w = [path] ->
   FileParser.select_file w =
   (Failed EOFError,
    {| FileParser.file_path := path;
       FileParser.file_type := FileParser.file_type w;
       FileParser.stdin := [];
       FileParser.stdout :=
         FileParser.stdout w ++
         [Prompt "Enter the file path: ";
          Prompt "Enter the file type ( csv, tsv, pdf, ppt, docx): "] |})).
Proof.
  destruct w as [p t lines out].
  cbn [FileParser.stdin FileParser.stdout FileParser.file_type]. split; intros ->.
  - cbv [FileParser.select_file FileParser.io_bind FileParser.input FileParser.write
         FileParser.set_file_path FileParser.set_file_type FileParser.print
         FileParser.io_ret FileParser.file_path FileParser.file_type FileParser.stdin
         FileParser.stdout].
    destruct (existsb (String.eqb type) FileParser.supported); cbv [negb];
      rewrite <- !app_assoc; reflexivity.
  - cbv [FileParser.select_file FileParser.io_bind FileParser.input FileParser.write
         FileParser.set_file_path FileParser.set_file_type FileParser.print
         FileParser.io_ret FileParser.file_path FileParser.file_type FileParser.stdin
         FileParser.stdout].
    rewrite <- !app_assoc. reflexivity.
Qed.

(** * FileParser: the loop of [run] *)

Lemma read_choice (w : FileParser.t) :
  FileParser.io_bind FileParser.display_menu
    (fun _ => FileParser.input "Enter your choice: ") w =
  match FileParser.stdin w with
  | [] => (Failed EOFError, printed w menu_lines)
  | choice :: rest =>
      (Ok choice,
       {| FileParser.file_path := FileParser.file_path w;
          FileParser.file_type := FileParser.file_type w;
          FileParser.stdin := rest;
          FileParser.stdout := FileParser.stdout w ++ menu_lines |})
  end.
Proof.
  destruct w as [p t lines out]. destruct lines as [|choice rest];
    cbv [FileParser.display_menu FileParser.io_bind FileParser.input FileParser.write
         FileParser.print FileParser.file_path FileParser.file_type FileParser.stdin
         FileParser.stdout printed menu_lines];
    rewrite <- !app_assoc; reflexivity.
Qed.

(** What [select_file] leaves to be read is an end of what there was. *)
Lemma select_file_stdin (w : FileParser.t) :
  exists read,
    FileParser.stdin w = read ++ FileParser.stdin (snd (FileParser.select_file w)).
Proof.
  destruct w as [p t lines out]. destruct lines as [|path [|type rest]].
  - exists []. reflexivity.
  - exists [path]. reflexivity.
  - exists [path; type].
    cbv [FileParser.select_file FileParser.io_bind FileParser.input FileParser.write
         FileParser.set_file_path FileParser.set_file_type FileParser.print
         FileParser.io_ret FileParser.file_path FileParser.file_type FileParser.stdin
         FileParser.stdout].
    destruct (existsb (String.eqb type) FileParser.supported); reflexivity.
Qed.

Section Run.
Variable env : Decoders.

Lemma run_loop_total passes w :
  (List.length (FileParser.stdin w) < passes)%nat ->
  exists r, FileParser.run_loop env passes w = Some r.
Proof.
  revert w. induction passes as [|passes IH]; intros w Hlen; [lia|].
  cbn [FileParser.run_loop]. rewrite read_choice.
  destruct (FileParser.stdin w) as [|choice rest] eqn:Hin; [now eexists|].
  simpl in Hlen.
  destruct (String.eqb choice "1").
  { pose proof (select_file_stdin
                  {| FileParser.file_path := FileParser.file_path w;
                     FileParser.file_type := FileParser.file_type w;
                     FileParser.stdin := rest;
                     FileParser.stdout := FileParser.stdout w ++ menu_lines |})
      as [read Hread].
    destruct (FileParser.select_file _) as [[b|f] w2]; [|now eexists].
    apply IH. cbn [FileParser.stdin snd] in Hread.
    apply (f_equal (@List.length string)) in Hread. rewrite length_app in Hread. lia. }
  destruct (String.eqb choice "2").
  { pose proof (parse_file_frame env
                  {| FileParser.file_path := FileParser.file_path w;
                     FileParser.file_type := FileParser.file_type w;
                     FileParser.stdin := rest;
                     FileParser.stdout := FileParser.stdout w ++ menu_lines |})
      as (_ & _ & Hsame & _).
    destruct (FileParser.parse_file env _) as [[u|f] w2]; [|now eexists].
    apply IH. cbn [FileParser.stdin snd] in Hsame. rewrite Hsame. lia. }
  destruct (String.eqb choice "3"); [now eexists|].
  cbv [FileParser.print FileParser.write]. apply IH. cbn [FileParser.stdin]. lia.
Qed.

Lemma run_loop_exit passes w w' :
  FileParser.run_loop env passes w = Some (Ok tt, w') ->
  In "3" (FileParser.stdin w) /\
  exists os, FileParser.stdout w' = os ++ [Line "Exiting..."].
Proof.
  revert w. induction passes as [|passes IH]; intros w Hrun; [discriminate|].
  cbn [FileParser.run_loop] in Hrun. rewrite read_choice in Hrun.
  destruct (FileParser.stdin w) as [|choice rest] eqn:Hin; [discriminate|].
  destruct (String.eqb choice "1").
  { pose proof (select_file_stdin
                  {| FileParser.file_path := FileParser.file_path w;
                     FileParser.file_type := FileParser.file_type w;
                     FileParser.stdin := rest;
                     FileParser.stdout := FileParser.stdout w ++ menu_lines |})
      as [read Hread].
    destruct (FileParser.select_file _) as [[b|f] w2]; [|discriminate].
    destruct (IH w2 Hrun) as [H3 Hout]. split; [|exact Hout].
    cbn [FileParser.stdin snd] in Hread. right. rewrite Hread.
    apply in_or_app. now right. }
  destruct (String.eqb choice "2").
  { pose proof (parse_file_frame env
                  {| FileParser.file_path := FileParser.file_path w;
                     FileParser.file_type := FileParser.file_type w;
                     FileParser.stdin := rest;
                     FileParser.stdout := FileParser.stdout w ++ menu_lines |})
      as (_ & _ & Hsame & _).
    destruct (FileParser.parse_file env _) as [[u|f] w2]; [|discriminate].
    destruct (IH w2 Hrun) as [H3 Hout]. split; [|exact Hout].
    cbn [FileParser.stdin snd] in Hsame. right. now rewrite <- Hsame. }
  destruct (String.eqb_spec choice "3") as [->|_].
  { cbv [FileParser.print FileParser.write] in Hrun. injection Hrun as <-.
    split; [now left|]. cbn [FileParser.stdout]. now eexists. }
  cbv [FileParser.print FileParser.write] in Hrun.
  destruct (IH _ Hrun) as [H3 Hout]. split; [|exact Hout].
  cbn [FileParser.stdin] in H3. now right.
Qed.

Lemma select_file_failure (w w2 : FileParser.t) f :
  FileParser.select_file w = (Failed f, w2) ->
  f = EOFError /\ FileParser.stdin w2 = [].
Proof.
  destruct w as [p t lines out]. destruct lines as [|path [|type rest]].
  - intros H. injection H as <- <-. split; reflexivity.
  - intros H. injection H as <- <-. split; reflexivity.
  - cbv [FileParser.select_file FileParser.io_bind FileParser.input FileParser.write
         FileParser.set_file_path FileParser.set_file_type FileParser.print
         FileParser.io_ret FileParser.file_path FileParser.file_type FileParser.stdin
         FileParser.stdout].
    destruct (existsb (String.eqb type) FileParser.supported); discriminate.
Qed.

Lemma parse_file_failure (w w2 : FileParser.t) f :
  FileParser.parse_file env w = (Failed f, w2) -> exists e, f = ParserRaised e.
Proof.
  destruct (string_dec (FileParser.file_path w) "") as [Hp|Hp].
  { rewrite parse_file_unselected by now left. discriminate. }
  destruct (string_dec (FileParser.file_type w) "") as [Ht|Ht].
  { rewrite parse_file_unselected by now right. discriminate. }
  destruct (in_dec string_dec (FileParser.file_type w) FileParser.supported) as [Hs|Hs].
  - rewrite (parse_file_dispatch env w Hp Hs).
    destruct (endswith _ _);
      [destruct (logical_chunks env _ _)|]; intros H; try discriminate H.
    injection H as <- _. now eexists.
  - rewrite (parse_file_unsupported env w Hp Ht Hs). discriminate.
Qed.

Lemma run_loop_eof passes w w' :
  FileParser.run_loop env passes w = Some (Failed EOFError, w') ->
  FileParser.stdin w' = [].
Proof.
  revert w. induction passes as [|passes IH]; intros w Hrun; [discriminate|].
  cbn [FileParser.run_loop] in Hrun. rewrite read_choice in Hrun.
  destruct (FileParser.stdin w) as [|choice rest] eqn:Hin.
  { injection Hrun as <-. exact Hin. }
  destruct (String.eqb choice "1").
  { destruct (FileParser.select_file _) as [[b|f] w2] eqn:Hsel; [now apply (IH w2)|].
    injection Hrun as -> ->. now destruct (select_file_failure _ _ _ Hsel). }
  destruct (String.eqb choice "2").
  { destruct (FileParser.parse_file env _) as [[u|f] w2] eqn:Hparse; [now apply (IH w2)|].
    injection Hrun as -> ->. destruct (parse_file_failure _ _ _ Hparse). discriminate. }
  destruct (String.eqb choice "3").
  { cbv [FileParser.print FileParser.write] in Hrun. discriminate. }
  cbv [FileParser.print FileParser.write] in Hrun. exact (IH _ Hrun).
Qed.

(** X24.  [run] ends on every finite input: with the passes the model
    grants it, one more than there are lines to read, the loop is never cut
    short.  It ends by the choice [3], by the exception of a parser, or by
    [EOFError], and by [EOFError] only when every line has been read. *)
Theorem menu_run_ends (w : FileParser.t) :
  exists r w',
    FileParser.run env w = Some (r, w') /\
    (r = Failed EOFError -> FileParser.stdin w' = []).
Proof.
  destruct (run_loop_total (Datatypes.S (List.length (FileParser.stdin w))) w)
    as [[r w'] H]; [lia|].
  exists r, w'. split; [exact H|]. intros ->. exact (run_loop_eof _ _ _ H).
Qed.

(** X25.  [run] returns only by the choice [3]: when it returns, a line
    [3] was among the lines to read and the last thing written is
    [Exiting...]; on an input without a line [3] it ends in an exception. *)
Theorem menu_run_exits_by_choice (w w' : FileParser.t) :
  FileParser.run env w = Some (Ok tt, w') ->
  In "3" (FileParser.stdin w) /\
  exists os, FileParser.stdout w' = os ++ [Line "Exiting..."].
Proof. apply run_loop_exit. Qed.

End Run.

Lemma menu_needs_selection_witness :
  FileParser.parse_file sample_env (FileParser.init ["2"]) =
  (Ok tt, printed (FileParser.init ["2"]) [Line "Error: Please select a file first"]).
Proof.
  apply (menu_parse_needs_selection sample_env (FileParser.init ["2"])).
  left. reflexivity.
Defined.

Lemma menu_extension_mismatch_witness :
  FileParser.parse_file sample_env (sample_selection "talk.ppt" "ppt") =
  (Ok tt,
   printed (sample_selection "talk.ppt" "ppt")
     [Line "Checking file type...";
      Line "Error: File type does not match the file extension"]).
Proof.
  apply (menu_extension_mismatch sample_env (sample_selection "talk.ppt" "ppt")).
  - discriminate.
  - simpl. tauto.
  - reflexivity.
Defined.

Lemma menu_parse_prints_result_witness :
  FileParser.parse_file sample_env (sample_selection "talk.pptx" "ppt") =
  match logical_chunks sample_env "ppt" "talk.pptx" with
  | Return v =>
      (Ok tt,
       printed (sample_selection "talk.pptx" "ppt")
         [Line "Checking file type...";
          Line "File type matches the file extension";
          Line (String.append "Parsing " (String.append (printed_name "ppt") " file..."));
          Value v])
  | Raise e =>
      (Failed (ParserRaised e),
       printed (sample_selection "talk.pptx" "ppt")
         [Line "Checking file type...";
          Line "File type matches the file extension"])
  end.
Proof.
  apply (menu_parse_prints_result sample_env (sample_selection "talk.pptx" "ppt")).
  - discriminate.
  - simpl. tauto.
  - reflexivity.
Defined.

Lemma menu_unsupported_type_silent_witness :
  FileParser.parse_file sample_env (sample_selection "sheet.xlsx" "xlsx") =
  (Ok tt, printed (sample_selection "sheet.xlsx" "xlsx") [Line "Checking file type..."]).
Proof.
  apply (menu_unsupported_type_silent sample_env (sample_selection "sheet.xlsx" "xlsx")).
  - discriminate.
  - discriminate.
  - simpl. intuition discriminate.
Defined.

Lemma menu_run_exits_by_choice_witness :
  In "3" (FileParser.stdin (FileParser.init ["7"; "3"; "2"])) /\
  exists os,
    FileParser.stdout
      (printed {| FileParser.file_path := ""; FileParser.file_type := "";
                  FileParser.stdin := ["2"];
                  FileParser.stdout :=
                    menu_lines ++ [Line "Invalid choice. Please try again."] |}
               (menu_lines ++ [Line "Exiting..."])) =
    os ++ [Line "Exiting..."].
Proof.
  apply (menu_run_exits_by_choice sample_env (FileParser.init ["7"; "3"; "2"])).
  reflexivity.
Defined.

Lemma menu_select_file_witness :
  FileParser.select_file (FileParser.init ["sheet.xlsx"; "xlsx"; "2"]) =
  (Ok false,
   {| FileParser.file_path := "sheet.xlsx";
      FileParser.file_type := "xlsx";
      FileParser.stdin := ["2"];
      FileParser.stdout :=
        [Prompt "Enter the file path: ";
         Prompt "Enter the file type ( csv, tsv, pdf, ppt, docx): ";
         Line "Error: Unsupported file type"] |}).
Proof.
  apply (proj1 (menu_select_file (FileParser.init ["sheet.xlsx"; "xlsx"; "2"])
                  "sheet.xlsx" "xlsx" ["2"])).
  reflexivity.
Defined.

(** X26.  For a supported type, every path made of a name, possibly empty,
    followed by the extension of the type passes the extension test: the
    parser of the type is called on it and its result or its exception is
    what [FileParser.parse_file] ends with. *)
Theorem menu_accepts_extension
    (env : Decoders) (w : FileParser.t) (name : string) :
  In (FileParser.file_type w) FileParser.supported ->
  FileParser.file_path w = String.append name (extension (FileParser.file_type w)) ->
  FileParser.parse_file env w =
  match logical_chunks env (FileParser.file_type w) (FileParser.file_path w) with
  | Return v =>
      (Ok tt,
       printed w [Line "Checking file type...";
                  Line "File type matches the file extension";
                  Line (String.append "Parsing "
                          (String.append (printed_name (FileParser.file_type w))
                                         " file..."));
                  Value v])
  | Raise e =>
      (Failed (ParserRaised e),
       printed w [Line "Checking file type...";
                  Line "File type matches the file extension"])
  end.
Proof.
  intros Htype Hpath.
  assert (Hne : FileParser.file_path w <> "").
  { rewrite Hpath. intros H. apply (f_equal String.length) in H.
    rewrite string_length_append in H.
    destruct Htype as [Ht|[Ht|[Ht|[Ht|[Ht|[]]]]]]; rewrite <- Ht in H;
      simpl in H; lia. }
  rewrite (parse_file_dispatch env w Hne Htype).
  rewrite Hpath at 1. now rewrite endswith_append.
Qed.

Lemma menu_accepts_extension_witness :
  FileParser.parse_file sample_env (sample_selection "people.csv" "csv") =
  match logical_chunks sample_env "csv" "people.csv" with
  | Return v =>
      (Ok tt,
       printed (sample_selection "people.csv" "csv")
         [Line "Checking file type...";
          Line "File type matches the file extension";
          Line (String.append "Parsing " (String.append (printed_name "csv") " file..."));
          Value v])
  | Raise e =>
      (Failed (ParserRaised e),
       printed (sample_selection "people.csv" "csv")
         [Line "Checking file type...";
          Line "File type matches the file extension"])
  end.
Proof.
  apply (menu_accepts_extension sample_env (sample_selection "people.csv" "csv") "people").
  - simpl. tauto.
  - reflexivity.
Defined.
